(** * Perioperative risk backend: the recommendation resolver, feature
      coercion and the three request handlers of [backend_app.py]

    The development follows the Python source function by function.
    Strings are Python [str] values held as their UTF-8 bytes; JSON
    bodies are the values [request.get_json()] hands to the handlers; the
    fitted pipeline and the medication map are process-wide values read
    by every request. *)

From Stdlib Require Import Bool List String Ascii NArith ZArith Lia Permutation.
From Stdlib Require Import PrimFloat DecimalString.
Import ListNotations.
Local Open Scope string_scope.
Local Open Scope list_scope.

Set Implicit Arguments.

(** ** Python strings *)

Module PyStr.

(** [needle in hay] on two [str] values. *)
Fixpoint str_in (needle hay : string) : bool :=
  String.prefix needle hay
  || match hay with
     | EmptyString => false
     | String _ rest => str_in needle rest
     end.

Definition is_upper_ascii (c : ascii) : bool :=
  let n := N_of_ascii c in ((65 <=? n) && (n <=? 90))%N.

Definition is_lower_ascii (c : ascii) : bool :=
  let n := N_of_ascii c in ((97 <=? n) && (n <=? 122))%N.

Definition ascii_lower (c : ascii) : ascii :=
  if is_upper_ascii c then ascii_of_N (N_of_ascii c + 32) else c.

Definition ascii_upper (c : ascii) : ascii :=
  if is_lower_ascii c then ascii_of_N (N_of_ascii c - 32) else c.

(** [s.lower()].  Python's case maps are those of Unicode; the two
    functions below are Python's on ASCII text and on U+0131 (LATIN
    SMALL LETTER DOTLESS I, bytes C4 B1), which [upper] sends to "I" and
    [lower] leaves alone.  Every statement that depends on them names
    the strings it ranges over. *)
Fixpoint lower (s : string) : string :=
  match s with
  | EmptyString => EmptyString
  | String c rest => String (ascii_lower c) (lower rest)
  end.

Definition is_dotless_i (c d : ascii) : bool :=
  ((N_of_ascii c =? 196) && (N_of_ascii d =? 177))%N.

(** [s.upper()], same domain as [lower]. *)
Fixpoint upper (s : string) : string :=
  match s with
  | EmptyString => EmptyString
  | String c rest =>
      match rest with
      | EmptyString => String (ascii_upper c) EmptyString
      | String d rest' =>
          if is_dotless_i c d then String "I"%char (upper rest')
          else String (ascii_upper c) (upper rest)
      end
  end.

Definition is_ascii_char (c : ascii) : bool := (N_of_ascii c <? 128)%N.

(** [s.isascii()]. *)
Fixpoint isascii (s : string) : bool :=
  match s with
  | EmptyString => true
  | String c rest => is_ascii_char c && isascii rest
  end.

End PyStr.

(** [str(x)]: the protocol every value passed to the resolver answers. *)
Class Str (A : Type) := str : A -> string.

#[export] Instance Str_string : Str string := fun s => s.

(** ** Python dicts with [str] keys, in insertion order *)

Module Dict.

Definition t (V : Type) := list (string * V).

(** [d.get(k)], [None] when the key is absent. *)
Fixpoint find V (d : t V) (k : string) : option V :=
  match d with
  | [] => None
  | (k', v) :: rest => if String.eqb k' k then Some v else find rest k
  end.

(** [d.get(k, default)]. *)
Definition get V (d : t V) (k : string) (default : V) : V :=
  match find d k with
  | Some v => v
  | None => default
  end.

(** [k in d]. *)
Definition mem V (d : t V) (k : string) : bool :=
  match find d k with
  | Some _ => true
  | None => false
  end.

Definition keys V (d : t V) : list string := map fst d.

(** [d[k] = v]: the value is replaced where the key already is, and
    appended otherwise. *)
Fixpoint set V (d : t V) (k : string) (v : V) : t V :=
  match d with
  | [] => [(k, v)]
  | (k', v') :: rest =>
      if String.eqb k' k then (k', v) :: rest else (k', v') :: set rest k v
  end.

(** [dict(pairs)]. *)
Definition of_pairs V (pairs : list (string * V)) : t V :=
  fold_left (fun d kv => set d (fst kv) (snd kv)) pairs [].

End Dict.

(** ** JSON values, as [request.get_json()] returns them *)

#[warnings="-register-all"]
Inductive json :=
| JNull
| JBool (b : bool)
| JInt (z : Z)
| JFloat (f : float)
| JString (s : string)
| JArray (items : list json)
| JObject (members : list (string * json)).

(** [bool(v)]: what [if not payload] tests. *)
Definition truthy (v : json) : bool :=
  match v with
  | JNull => false
  | JBool b => b
  | JInt z => negb (z =? 0)%Z
  | JFloat f => negb (PrimFloat.is_zero f)
  | JString s => negb (String.eqb s "")
  | JArray items => match items with [] => false | _ => true end
  | JObject members => match members with [] => false | _ => true end
  end.

Definition is_object (v : json) : bool :=
  match v with JObject _ => true | _ => false end.

Definition is_array (v : json) : bool :=
  match v with JArray _ => true | _ => false end.

(** The members of a JSON object, the empty dict for any other value. *)
Definition members_of (v : json) : Dict.t json :=
  match v with JObject d => d | _ => [] end.

(** ** Exceptions *)

(** An exception that derives from [Exception]: its class, [str(e)] and
    its traceback, the frames of this program it has gone through (the
    function and the line), outermost first.  What is printed below them
    for an exception raised inside a library belongs to the exception the
    library raised. *)
Record exn := {
  exn_class : string;
  exn_str : string;
  exn_traceback : list (string * nat)
}.

(** [ValueError(msg)], not yet raised. *)
Definition ValueError (msg : string) : exn :=
  {| exn_class := "ValueError"; exn_str := msg; exn_traceback := [] |}.

(** The [IndexError] of a subscript out of range, not yet raised. *)
Definition IndexError (msg : string) : exn :=
  {| exn_class := "IndexError"; exn_str := msg; exn_traceback := [] |}.

(** The exception once it has gone through [line] of [function]: raised
    there, or raised by what that line calls. *)
Definition through_frame (function : string) (line : nat) (e : exn) : exn :=
  {| exn_class := exn_class e;
     exn_str := exn_str e;
     exn_traceback := (function, line) :: exn_traceback e |}.

Inductive except (A : Type) :=
| Ok (a : A)
| Raise (e : exn).

Arguments Ok {A} a.
Arguments Raise {A} e.

(** The outcome of an expression at [line] of [function]: an exception it
    raises goes through that frame. *)
Definition at_line {A} (function : string) (line : nat) (r : except A)
  : except A :=
  match r with
  | Ok a => Ok a
  | Raise e => Raise (through_frame function line e)
  end.

(** ** The medication map and the recommendation *)

(** One row of [med_map_df]: its [Complication] cell and, by column name,
    the other cells as [row.iloc[0].to_dict()] holds them.  A column the
    CSV does not have is absent from [cells], and [r.get] then falls to
    its default. *)
Record MedRow := {
  Complication : string;
  cells : Dict.t string
}.

(** The frame built when [medication_map.csv] is not on disk. *)
Definition builtin_med_map : list MedRow :=
  [ {| Complication := "Infection";
       cells := [("Recommended_Medication", "Antibiotics");
                 ("Dosage", "500 mg/day"); ("Duration", "7 days")] |};
    {| Complication := "Bleeding";
       cells := [("Recommended_Medication", "Blood Transfusion + Hemostatic Agent");
                 ("Dosage", "2 units"); ("Duration", "1 days")] |};
    {| Complication := "Organ Failure";
       cells := [("Recommended_Medication", "IV Fluids + Vasopressors");
                 ("Dosage", "2 L/day"); ("Duration", "5 days")] |};
    {| Complication := "None";
       cells := [("Recommended_Medication", "Pain Management");
                 ("Dosage", "100 mg/day"); ("Duration", "1 days")] |} ].

(** The dict [recommend_from_complication] returns. *)
Record Recommendation := {
  Recommended_Medication : string;
  Dosage : string;
  Duration : string;
  Source : string
}.

Definition rule_infect : Recommendation :=
  {| Recommended_Medication := "Antibiotics"; Dosage := "500 mg/day";
     Duration := "7 days"; Source := "rule" |}.

Definition rule_bleed : Recommendation :=
  {| Recommended_Medication := "Blood Transfusion + Hemostatic Agent";
     Dosage := "2 units"; Duration := "1 days"; Source := "rule" |}.

Definition rule_organ : Recommendation :=
  {| Recommended_Medication := "IV Fluids + Vasopressors"; Dosage := "2 L/day";
     Duration := "5 days"; Source := "rule" |}.

Definition rule_default : Recommendation :=
  {| Recommended_Medication := "Pain Management"; Dosage := "100 mg/day";
     Duration := "1 days"; Source := "rule" |}.

(** The recommendation as it sits in a response body. *)
Definition json_of_recommendation (r : Recommendation) : json :=
  JObject [("Recommended_Medication", JString (Recommended_Medication r));
           ("Dosage", JString (Dosage r));
           ("Duration", JString (Duration r));
           ("Source", JString (Source r))].

(** ** Frames *)

(** A cell of a frame: a value ([Val JNull] is Python's [None]) or the
    NaN pandas puts where a record lacks a key. *)
Inductive cell :=
| Val (v : json)
| NaN.

Definition is_missing (c : cell) : bool :=
  match c with
  | Val JNull => true
  | NaN => true
  | _ => false
  end.

(** A frame, column-wise as pandas stores it: the number of rows of its
    index and, by label, the columns in order. *)
Record DataFrame := {
  index : nat;
  data : Dict.t (list cell)
}.

Definition columns (df : DataFrame) : list string := Dict.keys (data df).

(** [df[col] = None]. *)
Definition setitem_None (df : DataFrame) (col : string) : DataFrame :=
  {| index := index df;
     data := Dict.set (data df) col (repeat (Val JNull) (index df)) |}.

(** The labels of [cols] that are not columns of [df]. *)
Definition not_in_columns (df : DataFrame) (cols : list string) : list string :=
  filter (fun c => negb (Dict.mem (data df) c)) cols.

(** The keys of all the records, each once, in the order they are first
    seen: the columns [pd.DataFrame] gives a list of dicts. *)
Fixpoint union_keys (seen : list string) (records : list (Dict.t json))
  : list string :=
  match records with
  | [] => seen
  | r :: rest =>
      union_keys
        (fold_left
           (fun acc k => if existsb (String.eqb k) acc then acc else acc ++ [k])
           (Dict.keys r) seen)
        rest
  end.

Definition cell_of (r : Dict.t json) (k : string) : cell :=
  match Dict.find r k with
  | Some v => Val v
  | None => NaN
  end.

Section Inference.

(** [pd.DataFrame] infers a dtype for each column from the objects
    supplied for it, and stores every cell in that dtype: 60 becomes 60.0
    in a column that also holds a NaN, and an integer beyond 2^53 is
    rounded there.  [stored_value column v] is what is stored for the
    value [v], not [None], supplied in [column]. *)
Variable stored_value : list cell -> json -> json.

(** Whether a [None] supplied in [column] stays [None] (an object column)
    or becomes NaN (a numerical one). *)
Variable keeps_None : list cell -> bool.

(** The cell stored for the cell [c] supplied in [column]; a NaN stays a
    NaN in every dtype. *)
Definition infer_cell (column : list cell) (c : cell) : cell :=
  match c with
  | NaN => NaN
  | Val JNull => if keeps_None column then Val JNull else NaN
  | Val v => Val (stored_value column v)
  end.

Definition infer_objects (column : list cell) : list cell :=
  map (infer_cell column) column.

(** [pd.DataFrame(records)] on a list of dicts. *)
Definition DataFrame_of_dicts (records : list (Dict.t json)) : DataFrame :=
  {| index := List.length records;
     data := map (fun k => (k, infer_objects (map (fun r => cell_of r k) records)))
                 (union_keys [] records) |}.

End Inference.

(** The 15 feature names, in the order the pipeline was trained on.  The
    [try] around the assignment cannot fail, so the name is bound to the
    list and never to [None]. *)
Definition EXPECTED_FEATURES : option (list string) :=
  Some ["Age"; "Gender"; "BMI"; "ASA_Score"; "Diabetes"; "Hypertension";
        "Heart_Disease"; "Preop_Hb"; "Preop_WBC"; "Surgery_Type";
        "Duration_Min"; "Blood_Loss_ml"; "Vital_Instability";
        "Postop_Hb"; "Postop_WBC"].

(** ** The fitted pipeline *)

(** [model.predict], and [model.predict_proba] (followed by [.tolist()])
    and [model.classes_] where the pipeline has the attribute.  The
    pipeline is read-only after loading: each call is a function of the
    frame.  Labels are the [str] values of the training set's
    [Complication] column. *)
Record Model := {
  predict_of : DataFrame -> except (list string);
  predict_proba_of : option (DataFrame -> except (list (list float)));
  classes_ : option (list string)
}.

(** A call made on the pipeline. *)
Inductive call :=
| CallPredict (df : DataFrame)
| CallPredictProba (df : DataFrame).

(** ** Handler computations: the calls made so far, and a result or an
       exception *)

Definition M (A : Type) : Type := list call -> except A * list call.

Definition ret {A} (a : A) : M A := fun log => (Ok a, log).

Definition raise {A} (e : exn) : M A := fun log => (Raise e, log).

Definition bind {A B} (m : M A) (k : A -> M B) : M B :=
  fun log =>
    match m log with
    | (Ok a, log') => k a log'
    | (Raise e, log') => (Raise e, log')
    end.

Definition lift {A} (r : except A) : M A := fun log => (r, log).

Declare Scope py_scope.
Delimit Scope py_scope with py.
Notation "x <- m ;; k" := (bind m (fun x => k))
  (at level 61, m at next level, right associativity) : py_scope.

(** An HTTP response: the JSON body and the status code. *)
Record response := { body : json; status : nat }.

(** [jsonify(v)], answered with status 200. *)
Definition jsonify (v : json) : response := {| body := v; status := 200 |}.

(** ** train_model.py: the columns of the training frame *)

Module TrainModel.

(** The labels [df.drop(columns=[...])] removes before training. *)
Definition dropped : list string :=
  ["Patient_ID"; "Complication"; "Risk_Score";
   "Recommended_Medication"; "Dosage"; "Duration"].

Definition categorical : list string :=
  ["Gender"; "Diabetes"; "Hypertension"; "Heart_Disease";
   "Surgery_Type"; "Vital_Instability"].

(** [numerical = [col for col in X.columns if col not in categorical]]. *)
Definition numerical (X_columns : list string) : list string :=
  filter (fun col => negb (existsb (String.eqb col) categorical)) X_columns.

Section Columns.

(** [str] of the [KeyError] that [drop] and [dropna] raise for labels
    that are not columns. *)
Variable drop_keyerror_str : list string -> string.
Variable dropna_keyerror_str : list string -> string.

(** The labels of [labels] that are not among [columns]. *)
Definition not_found (columns labels : list string) : list string :=
  filter (fun l => negb (existsb (String.eqb l) columns)) labels.

(** The columns left by [df.drop(columns=labels)], a [KeyError] when a
    label is not a column. *)
Definition drop (columns labels : list string) : except (list string) :=
  match not_found columns labels with
  | [] => Ok (filter (fun c => negb (existsb (String.eqb c) labels)) columns)
  | missing =>
      Raise {| exn_class := "KeyError";
               exn_str := drop_keyerror_str missing;
               exn_traceback := [] |}
  end.

(** [df.dropna(subset=labels)] keeps the columns, and raises a [KeyError]
    when a label is not a column. *)
Definition dropna_subset (columns labels : list string)
  : except (list string) :=
  match not_found columns labels with
  | [] => Ok columns
  | missing =>
      Raise {| exn_class := "KeyError";
               exn_str := dropna_keyerror_str missing;
               exn_traceback := [] |}
  end.

(** The columns of [X], from the columns of the CSV: the script drops the
    rows without a label (line 13), then the six columns that are not
    features (line 17). *)
Definition X_columns (csv_columns : list string) : except (list string) :=
  match at_line "<module>" 13 (dropna_subset csv_columns ["Complication"]) with
  | Raise e => Raise e
  | Ok columns => at_line "<module>" 17 (drop columns dropped)
  end.

(** The two column groups handed to the [ColumnTransformer]. *)
Definition feature_groups (csv_columns : list string)
  : except (list string * list string) :=
  match X_columns csv_columns with
  | Raise e => Raise e
  | Ok X => Ok (numerical X, categorical)
  end.

End Columns.

End TrainModel.

(** ** A runtime to run the handlers on

    The statements below hold for every runtime, medication map and
    pipeline.  The values here fix them so that the handlers can be run on
    examples. *)

Definition sample_repr (v : json) : string := "<repr>".

(** The frames of the traceback, then the class and the message. *)
Definition sample_format_exc (e : exn) : string :=
  ("Traceback (most recent call last):"
   ++ String.concat ""
        (map (fun frame =>
                " line " ++ NilZero.string_of_uint (Nat.to_uint (snd frame))
                ++ ", in " ++ fst frame ++ ";")
             (exn_traceback e))
   ++ " " ++ exn_class e ++ ": " ++ exn_str e)%string.

Definition sample_keyerror_str (missing : list string) : string :=
  "not in index".

(** The labels a [KeyError] of the training script names. *)
Definition sample_labels_str (missing : list string) : string :=
  String.concat ", " missing.

(** The float of an integer; exact below 2^53 in size. *)
Fixpoint float_of_positive (p : positive) : float :=
  match p with
  | xH => PrimFloat.one
  | xO q => (PrimFloat.two * float_of_positive q)%float
  | xI q => (PrimFloat.two * float_of_positive q + PrimFloat.one)%float
  end.

Definition float_of_Z (z : Z) : float :=
  match z with
  | Z0 => PrimFloat.zero
  | Zpos p => float_of_positive p
  | Zneg p => (- float_of_positive p)%float
  end.

Definition is_number (v : json) : bool :=
  match v with JInt _ | JFloat _ => true | _ => false end.

(** A column of numbers, NaN and [None] that holds a number or a NaN: a
    column of [None] alone is not one. *)
Definition numerical_column (column : list cell) : bool :=
  forallb (fun c => match c with
                    | NaN | Val JNull => true
                    | Val v => is_number v
                    end) column
  && existsb (fun c => match c with Val v => is_number v | NaN => true end)
       column.

(** A column of numbers that holds a float or a missing cell: pandas
    stores it as float64. *)
Definition float_column (column : list cell) : bool :=
  numerical_column column
  && existsb (fun c => match c with
                       | NaN | Val JNull | Val (JFloat _) => true
                       | _ => false
                       end) column.

(** Dtype inference on columns of integers below 2^53 in size, floats,
    strings and booleans: integers become floats in a float column, and
    [None] becomes NaN in a numerical column. *)
Definition sample_stored_value (column : list cell) (v : json) : json :=
  match v with
  | JInt z => if float_column column then JFloat (float_of_Z z) else v
  | _ => v
  end.

Definition sample_keeps_None (column : list cell) : bool :=
  negb (numerical_column column).

Definition is_scalar (v : json) : bool :=
  match v with JArray _ | JObject _ => false | _ => true end.

(** [pd.DataFrame] on a list of scalars gives a frame of one column,
    whose integer label 0 is written "0" here.  For the other lists that
    are not lists of dicts the examples do not need what pandas does; an
    exception stands for it. *)
Definition sample_irregular (records : list json) : except DataFrame :=
  if forallb is_scalar records
  then Ok {| index := List.length records;
             data := [("0", infer_objects sample_stored_value sample_keeps_None
                              (map Val records))] |}
  else Raise {| exn_class := "TypeError";
                exn_str := "object is not iterable";
                exn_traceback := [] |}.

(** A pipeline that predicts "Infection" for every row and has no
    [predict_proba]. *)
Definition sample_model : Model :=
  {| predict_of := fun df => Ok (repeat "Infection" (index df));
     predict_proba_of := None;
     classes_ := None |}.

(** A pipeline that also gives class probabilities. *)
Definition sample_model_proba : Model :=
  {| predict_of := fun df => Ok (repeat "Bleeding" (index df));
     predict_proba_of :=
       Some (fun df => Ok (repeat [0.25%float; 0.75%float] (index df)));
     classes_ := Some ["Infection"; "Bleeding"] |}.

(** A pipeline whose [predict] raises. *)
Definition sample_model_failing : Model :=
  {| predict_of := fun _ =>
       Raise {| exn_class := "ValueError";
                exn_str := "Input contains NaN";
                exn_traceback := [] |};
     predict_proba_of :=
       Some (fun _ =>
               Raise {| exn_class := "ValueError";
                        exn_str := "Input contains NaN";
                        exn_traceback := [] |});
     classes_ := None |}.

(** A pipeline whose [predict] returns and whose [predict_proba]
    raises. *)
Definition sample_model_proba_raising : Model :=
  {| predict_of := fun df => Ok (repeat "Infection" (index df));
     predict_proba_of :=
       Some (fun _ =>
               Raise {| exn_class := "ValueError";
                        exn_str := "Input contains NaN";
                        exn_traceback := [] |});
     classes_ := None |}.

(** A pipeline whose [predict_proba] gives a single row, whatever the
    frame. *)
Definition sample_model_short : Model :=
  {| predict_of := fun df => Ok (repeat "Infection" (index df));
     predict_proba_of := Some (fun _ => Ok [[1%float]]);
     classes_ := None |}.

(** The columns of a training CSV: the identifier, the 15 features, and
    the label with its annotations. *)
Definition sample_csv_columns : list string :=
  "Patient_ID"
  :: (match EXPECTED_FEATURES with Some f => f | None => [] end)
  ++ ["Complication"; "Risk_Score"; "Recommended_Medication"; "Dosage";
      "Duration"].

(** The label "\u0131nfect": U+0131 (bytes C4 B1) followed by "nfect". *)
Definition dotless_infect : string :=
  String (ascii_of_N 196) (String (ascii_of_N 177) "nfect").

Definition sample_patient : json :=
  JObject [("Gender", JString "Male"); ("Age", JInt 60);
           ("Surgery_Type", JString "Whipple")].

(** The frames coercion builds from [sample_patient] alone and from
    [sample_patient] followed by the empty object, where the column of
    the age is stored as floats. *)
Definition sample_patient_frame : DataFrame :=
  {| index := 1;
     data := map (fun c =>
                    (c, Dict.get [("Age", [Val (JInt 60)]);
                                  ("Gender", [Val (JString "Male")]);
                                  ("Surgery_Type", [Val (JString "Whipple")])]
                          c [Val JNull]))
                 (match EXPECTED_FEATURES with Some f => f | None => [] end) |}.

Definition sample_pair_frame : DataFrame :=
  {| index := 2;
     data := map (fun c =>
                    (c, Dict.get [("Age", [Val (JFloat 60%float); NaN]);
                                  ("Gender", [Val (JString "Male"); NaN]);
                                  ("Surgery_Type", [Val (JString "Whipple"); NaN])]
                          c [Val JNull; Val JNull]))
                 (match EXPECTED_FEATURES with Some f => f | None => [] end) |}.

Definition sample_patient_reordered : json :=
  JObject [("Age", JInt 60); ("Surgery_Type", JString "Whipple");
           ("Gender", JString "Male")].

Section Backend.

Local Open Scope py_scope.

(** *** What the Python runtime and the libraries supply *)

(** [str.lower], as Python has it. *)
Variable lower : string -> string.

(** [repr] of a number, a list or a dict. *)
Variable repr : json -> string.

(** [traceback.format_exc()] while [e] is being handled: the text for
    its traceback, its class and its message. *)
Variable format_exc : exn -> string.

(** [str] of the [KeyError] pandas raises for labels that are not
    columns. *)
Variable keyerror_str : list string -> string.

(** The dtype inference of [pd.DataFrame]: what is stored for a value
    supplied in a column, and whether [None] is kept there. *)
Variable stored_value : list cell -> json -> json.
Variable keeps_None : list cell -> bool.

(** [pd.DataFrame(records)] on a list that is not a list of dicts. *)
Variable DataFrame_irregular : list json -> except DataFrame.

(** *** Process-wide state, loaded once at start-up *)

Variable med_map_df : list MedRow.

Variable model : Model.

(** [str(v)] on a JSON value. *)
Definition str_json (v : json) : string :=
  match v with
  | JString s => s
  | JNull => "None"
  | JBool true => "True"
  | JBool false => "False"
  | _ => repr v
  end.

#[local] Instance Str_json : Str json := str_json.

(** *** recommend_from_complication *)

(** [med_map_df[med_map_df['Complication'].str.lower() == key]]. *)
Definition matching_rows (key : string) : list MedRow :=
  filter (fun r => String.eqb (lower (Complication r)) key) med_map_df.

(** The dict built from [r = row.iloc[0].to_dict()]. *)
Definition from_table (r : MedRow) : Recommendation :=
  {| Recommended_Medication :=
       Dict.get (cells r) "Recommended_Medication" "No recommendation";
     Dosage := Dict.get (cells r) "Dosage" "N/A";
     Duration := Dict.get (cells r) "Duration" "N/A";
     Source := "medication_map.csv" |}.

(** The rule-based fall-back on [comp = str(complication).lower()]. *)
Definition fallback (comp : string) : Recommendation :=
  if PyStr.str_in "infect" comp then rule_infect
  else if PyStr.str_in "bleed" comp then rule_bleed
  else if PyStr.str_in "organ" comp || PyStr.str_in "failure" comp
       then rule_organ
  else rule_default.

Definition recommend_from_complication {A} `{Str A} (complication : A)
  : Recommendation :=
  match matching_rows (lower (str complication)) with
  | r :: _ => from_table r
  | [] => fallback (lower (str complication))
  end.

(** *** validate_and_build_df *)

(** [pd.DataFrame(records)]. *)
Definition pd_DataFrame (records : list json) : except DataFrame :=
  if forallb is_object records
  then Ok (DataFrame_of_dicts stored_value keeps_None
             (map members_of records))
  else DataFrame_irregular records.

(** [df[cols]]: the named columns in the order asked, a [KeyError] when
    one is not a column. *)
Definition getitem_columns (df : DataFrame) (cols : list string)
  : except DataFrame :=
  match not_in_columns df cols with
  | [] => Ok {| index := index df;
                data := map (fun c => (c, Dict.get (data df) c [])) cols |}
  | missing =>
      Raise {| exn_class := "KeyError";
               exn_str := keyerror_str missing;
               exn_traceback := [] |}
  end.

(** [for col in features: if col not in df.columns: df[col] = None]. *)
Definition fill_missing (features : list string) (df : DataFrame)
  : DataFrame :=
  fold_left
    (fun df col =>
       if negb (Dict.mem (data df) col) then setitem_None df col else df)
    features df.

(** Lines 74 to 79: the records, or the [ValueError] raised at line 79. *)
Definition records_of (payload : json) : except (list json) :=
  match payload with
  | JObject _ => Ok [payload]
  | JArray items => Ok items
  | _ =>
      Raise (through_frame "validate_and_build_df" 79
               (ValueError "Payload must be a JSON object or array of objects."))
  end.

(** The frame is built at line 80 and its columns are selected at
    line 86. *)
Definition validate_and_build_df (payload : json) : except DataFrame :=
  match records_of payload with
  | Raise e => Raise e
  | Ok records =>
      match at_line "validate_and_build_df" 80 (pd_DataFrame records) with
      | Raise e => Raise e
      | Ok df =>
          match EXPECTED_FEATURES with
          | Some features =>
              at_line "validate_and_build_df" 86
                (getitem_columns (fill_missing features df) features)
          | None => Ok df
          end
      end
  end.

(** *** The handlers *)

(** [model.predict(df)] at [line] of the handler [function]. *)
Definition model_predict (function : string) (line : nat) (df : DataFrame)
  : M (list string) :=
  fun log => (at_line function line (predict_of model df),
              log ++ [CallPredict df]).

(** The inner [try] of /predict and /predict_recommend: [probs] stays
    [None] when the pipeline has no [predict_proba], which is then not
    called, and when the call raises. *)
Definition try_predict_proba (df : DataFrame)
  : M (option (list (list float))) :=
  fun log =>
    match predict_proba_of model with
    | None => (Ok None, log)
    | Some predict_proba =>
        (Ok match predict_proba df with
            | Ok probs => Some probs
            | Raise _ => None
            end,
         log ++ [CallPredictProba df])
    end.

(** [for idx, a in enumerate(l, idx): out.append(f idx a)], stopped by
    the first exception. *)
Fixpoint for_enumerate {A B} (f : nat -> A -> except B) (idx : nat)
  (l : list A) : except (list B) :=
  match l with
  | [] => Ok []
  | a :: rest =>
      match f idx a with
      | Raise e => Raise e
      | Ok b =>
          match for_enumerate f (S idx) rest with
          | Raise e => Raise e
          | Ok bs => Ok (b :: bs)
          end
      end
  end.

(** [dict(zip(classes, probs[idx])) if classes else probs[idx]]. *)
Definition probabilities (probs : list (list float)) (idx : nat)
  : except json :=
  let classes := match classes_ model with Some c => c | None => [] end in
  match nth_error probs idx with
  | None => Raise (IndexError "list index out of range")
  | Some row =>
      match classes with
      | [] => Ok (JArray (map JFloat row))
      | _ => Ok (JObject (Dict.of_pairs (combine classes (map JFloat row))))
      end
  end.

(** [if probs is not None: entry["Probabilities"] = ...]. *)
Definition with_probabilities (probs : option (list (list float)))
  (idx : nat) (entry : Dict.t json) : except json :=
  match probs with
  | None => Ok (JObject entry)
  | Some pr =>
      match probabilities pr idx with
      | Raise e => Raise e
      | Ok v => Ok (JObject (Dict.set entry "Probabilities" v))
      end
  end.

Definition error_response (e : exn) : response :=
  {| body := JObject [("status", JString "error");
                      ("error", JString (exn_str e));
                      ("trace", JString (format_exc e))];
     status := 400 |}.

(** [try: ... except Exception as e: return jsonify({...}), 400], run
    on a request: the response and the calls made on the pipeline. *)
Definition handle (m : M response) : response * list call :=
  match m [] with
  | (Ok r, log) => (r, log)
  | (Raise e, log) => (error_response e, log)
  end.

(** POST /predict; [get_json] is what [request.get_json()] does for the
    request: the parsed body, or the exception it raises.  The body is
    read at line 102, coerced at line 103 and predicted from at line 104;
    [probs[p_idx]] is at line 116. *)
Definition predict (get_json : except json) : response * list call :=
  handle (
    payload <- lift (at_line "predict" 102 get_json) ;;
    df <- lift (at_line "predict" 103 (validate_and_build_df payload)) ;;
    preds <- model_predict "predict" 104 df ;;
    probs <- try_predict_proba df ;;
    results <- lift (at_line "predict" 116
                       (for_enumerate
                          (fun p_idx p =>
                             with_probabilities probs p_idx
                               [("Complication", JString (str p))])
                          0 preds)) ;;
    ret (jsonify (JObject [("status", JString "ok");
                           ("predictions", JArray results)]))).

Definition recommend_entry (p : string) : json :=
  JObject [("Complication", JString (str p));
           ("Recommendation",
            json_of_recommendation (recommend_from_complication p))].

(** POST /recommend: the body is read at line 130, an empty one is
    refused at line 132, and a feature body is coerced at line 139 and
    predicted from at line 140. *)
Definition recommend (get_json : except json) : response * list call :=
  handle (
    payload <- lift (at_line "recommend" 130 get_json) ;;
    if negb (truthy payload)
    then raise (through_frame "recommend" 132 (ValueError "Empty request body"))
    else
      match Dict.find (members_of payload) "Complication" with
      | Some comp =>
          let rec := recommend_from_complication comp in
          ret (jsonify (JObject [("status", JString "ok");
                                 ("complication", comp);
                                 ("recommendation", json_of_recommendation rec)]))
      | None =>
          df <- lift (at_line "recommend" 139 (validate_and_build_df payload)) ;;
          preds <- model_predict "recommend" 140 df ;;
          ret (jsonify (JObject [("status", JString "ok");
                                 ("recommendations",
                                  JArray (map recommend_entry preds))]))
      end).

(** POST /predict_recommend: the body is read at line 155, coerced at
    line 156 and predicted from at line 157; [probs[idx]] is at
    line 170. *)
Definition predict_recommend (get_json : except json)
  : response * list call :=
  handle (
    payload <- lift (at_line "predict_recommend" 155 get_json) ;;
    df <- lift (at_line "predict_recommend" 156 (validate_and_build_df payload)) ;;
    preds <- model_predict "predict_recommend" 157 df ;;
    probs <- try_predict_proba df ;;
    out <- lift (at_line "predict_recommend" 170
                   (for_enumerate
                      (fun idx p =>
                         let comp := str p in
                         let rec := recommend_from_complication comp in
                         with_probabilities probs idx
                           [("Complication", JString comp);
                            ("Recommendation", json_of_recommendation rec)])
                      0 preds)) ;;
    ret (jsonify (JObject [("status", JString "ok");
                           ("results", JArray out)]))).

(** GET /. *)
Definition index_route : response :=
  jsonify (JObject [("status", JString "ok");
                    ("msg", JString "Perioperative Risk Backend running. Use /predict, /recommend, /predict_recommend.")]).

(** *** The resolver, as the specification words it *)

(** The keyword buckets of the fall-back, in the order they are tried. *)
Definition keyword_buckets : list (list string * Recommendation) :=
  [ (["infect"], rule_infect);
    (["bleed"], rule_bleed);
    (["organ"; "failure"], rule_organ) ].

(** The first bucket one of whose keywords is a substring of [comp]. *)
Definition keyword_rule (comp : string) : option Recommendation :=
  option_map snd
    (List.find
       (fun bucket => existsb (fun kw => PyStr.str_in kw comp) (fst bucket))
       keyword_buckets).

(** No row of the table has the label [s], case aside. *)
Definition no_table_match (s : string) : Prop :=
  Forall (fun row => lower (Complication row) <> lower s) med_map_df.

(** The three ways a label resolves: the first row of the table that
    carries it (case aside), else the first keyword bucket that matches,
    else the generic default. *)
Inductive resolves (s : string) : Recommendation -> Prop :=
| resolves_table before row after :
    med_map_df = before ++ row :: after ->
    Forall (fun r => lower (Complication r) <> lower s) before ->
    lower (Complication row) = lower s ->
    resolves s (from_table row)
| resolves_keyword r :
    no_table_match s ->
    keyword_rule (lower s) = Some r ->
    resolves s r
| resolves_default :
    no_table_match s ->
    keyword_rule (lower s) = None ->
    resolves s rule_default.

(** The [Complication] member of a response entry. *)
Definition entry_label (entry : json) : option json :=
  Dict.find (members_of entry) "Complication".

(** *** Feature payloads *)

(** A single JSON object or an array of objects. *)
Definition feature_payload (payload : json) : bool :=
  match payload with
  | JObject _ => true
  | JArray items => forallb is_object items
  | _ => false
  end.

(** Two objects with the same members, written in a different order. *)
Definition reordered (r r' : json) : Prop :=
  is_object r = true /\ is_object r' = true
  /\ NoDup (Dict.keys (members_of r))
  /\ Permutation (members_of r) (members_of r').

(** Two feature payloads that differ only in the key order of their
    objects. *)
Inductive same_up_to_key_order : json -> json -> Prop :=
| reorder_object d d' :
    reordered (JObject d) (JObject d') ->
    same_up_to_key_order (JObject d) (JObject d')
| reorder_array items items' :
    Forall2 reordered items items' ->
    same_up_to_key_order (JArray items) (JArray items').

(** What the records supply for the key [col]: the value a record gives
    it, NaN where the record lacks it. *)
Definition supplied_column (records : list (Dict.t json)) (col : string)
  : list cell :=
  map (fun r => cell_of r col) records.

(** The column [col] of the coerced frame: what pandas stores for the
    values the records give the key, with NaN where a record lacks a key
    that another has, and [None] throughout where no record has it. *)
Definition coerced_column (records : list (Dict.t json)) (col : string)
  : list cell :=
  if existsb (fun r => Dict.mem r col) records
  then infer_objects stored_value keeps_None (supplied_column records col)
  else repeat (Val JNull) (List.length records).

(** *** What the handlers answer *)

(** [probs] after the inner [try]. *)
Definition probs_of (df : DataFrame) : option (list (list float)) :=
  match predict_proba_of model with
  | None => None
  | Some predict_proba =>
      match predict_proba df with
      | Ok probs => Some probs
      | Raise _ => None
      end
  end.

(** The call the inner [try] makes on the pipeline. *)
Definition proba_calls (df : DataFrame) : list call :=
  match predict_proba_of model with
  | None => []
  | Some _ => [CallPredictProba df]
  end.

(** The entry /predict builds for the prediction at [p_idx]. *)
Definition predict_entry (probs : option (list (list float)))
  (p_idx : nat) (p : string) : except json :=
  with_probabilities probs p_idx [("Complication", JString (str p))].

(** The entry /predict_recommend builds for the prediction at [idx]. *)
Definition predict_recommend_entry (probs : option (list (list float)))
  (idx : nat) (p : string) : except json :=
  with_probabilities probs idx
    [("Complication", JString (str p));
     ("Recommendation",
      json_of_recommendation (recommend_from_complication (str p)))].

(** The success body of a handler: [{"status": "ok", key: entries}]. *)
Definition ok_body (key : string) (entries : list json) : json :=
  JObject [("status", JString "ok"); (key, JArray entries)].

(** The frame coercion builds from the empty object: one row, [None] in
    each of the expected columns. *)
Definition all_null_row : DataFrame :=
  {| index := 1;
     data := map (fun c => (c, [Val JNull]))
                 (match EXPECTED_FEATURES with Some f => f | None => [] end) |}.

(** A response a handler may give: status 200 with a body whose
    [status] member is "ok", or the error response of an exception. *)
Definition answered (r : response) : Prop :=
  (status r = 200
   /\ exists members, body r = JObject (("status", JString "ok") :: members))
  \/ (exists e, r = error_response e).

(** [probs] is absent, or has a row for each prediction. *)
Definition probs_cover (probs : option (list (list float))) (n : nat) : Prop :=
  match probs with
  | None => True
  | Some rows => n <= List.length rows
  end.

(** *** Members of a response entry *)

(** The [Probabilities] member of a response entry. *)
Definition entry_probabilities (entry : json) : option json :=
  Dict.find (members_of entry) "Probabilities".

(** The [Recommendation] member of a response entry. *)
Definition entry_recommendation (entry : json) : option json :=
  Dict.find (members_of entry) "Recommendation".

(** An entry of /predict_recommend beside the entry of /predict for the
    same prediction: the same label and probabilities, and the
    recommendation the resolver gives the label. *)
Definition extends_entry (e e' : json) : Prop :=
  entry_label e' = entry_label e
  /\ entry_probabilities e' = entry_probabilities e
  /\ exists p, entry_label e = Some (JString p)
               /\ entry_recommendation e'
                  = Some (json_of_recommendation (recommend_from_complication p)).

(** Two entries with the same label and the same recommendation. *)
Definition same_label_and_recommendation (e e' : json) : Prop :=
  entry_label e' = entry_label e
  /\ entry_recommendation e' = entry_recommendation e.

(** Two records that give every feature of [features] the same value, or
    both lack it. *)
Definition agree_on (features : list string) (r r' : json) : Prop :=
  is_object r = true /\ is_object r' = true
  /\ forall c, In c features ->
       Dict.find (members_of r) c = Dict.find (members_of r') c.

(** The calls /predict and /predict_recommend make for a request. *)
Definition predict_calls (get_json : except json) : list call :=
  match get_json with
  | Raise _ => []
  | Ok payload =>
      match validate_and_build_df payload with
      | Raise _ => []
      | Ok df =>
          match predict_of model df with
          | Raise _ => [CallPredict df]
          | Ok _ => CallPredict df :: proba_calls df
          end
      end
  end.

(** ** Facts about strings and dicts *)

Lemma prefix_app (n h : string) :
  String.prefix n h = true <-> exists post, h = (n ++ post)%string.
Proof.
  revert h; induction n as [|c n IH]; intros h.
  - split; [intros _; exists h; reflexivity | intros _; now destruct h].
  - destruct h as [|d h]; simpl.
    + split; [discriminate | intros [post E]; discriminate].
    + destruct (Ascii.ascii_dec c d) as [->|Hcd].
      * rewrite IH. split; intros [post E]; exists post.
        -- now rewrite E.
        -- now inversion E.
      * split; [discriminate | intros [post E]; inversion E; congruence].
Qed.

(** [str_in] is the substring test. *)
Lemma str_in_spec (n h : string) :
  PyStr.str_in n h = true <-> exists pre post, h = (pre ++ n ++ post)%string.
Proof.
  induction h as [|d h IH].
  - destruct n as [|c n]; simpl.
    + split; [intros _; exists "", ""; reflexivity | reflexivity].
    + split; [discriminate|].
      intros [pre [post E]]. destruct pre; discriminate.
  - change (PyStr.str_in n (String d h))
      with (String.prefix n (String d h) || PyStr.str_in n h).
    rewrite orb_true_iff, prefix_app, IH. split.
    + intros [[post E]|[pre [post E]]].
      * exists "", post. exact E.
      * exists (String d pre), post. simpl. now rewrite E.
    + intros [pre [post E]]. destruct pre as [|c pre]; simpl in E.
      * left. exists post. exact E.
      * right. exists pre, post. now inversion E.
Qed.

Lemma matching_rows_nil (key : string) :
  matching_rows key = []
  <-> Forall (fun row => lower (Complication row) <> key) med_map_df.
Proof.
  unfold matching_rows. induction med_map_df as [|r rows IH]; simpl.
  - split; [constructor | reflexivity].
  - destruct (String.eqb_spec (lower (Complication r)) key) as [E|N].
    + split; [discriminate | intros F; inversion F; contradiction].
    + rewrite IH. split; [now constructor | intros F; now inversion F].
Qed.

Lemma matching_rows_cons (key : string) (row : MedRow) (rest : list MedRow) :
  matching_rows key = row :: rest
  -> exists before after,
       med_map_df = before ++ row :: after
       /\ Forall (fun r => lower (Complication r) <> key) before
       /\ lower (Complication row) = key.
Proof.
  unfold matching_rows. induction med_map_df as [|r rows IH]; simpl.
  - discriminate.
  - destruct (String.eqb_spec (lower (Complication r)) key) as [E|N].
    + intros H. inversion H; subst r. exists [], rows. repeat split; auto.
    + intros H. destruct (IH H) as (before & after & -> & F & E).
      exists (r :: before), after. repeat split; auto.
Qed.

Lemma matching_rows_first (key : string) (before after : list MedRow)
  (row : MedRow) :
  med_map_df = before ++ row :: after
  -> Forall (fun r => lower (Complication r) <> key) before
  -> lower (Complication row) = key
  -> exists rest, matching_rows key = row :: rest.
Proof.
  unfold matching_rows. intros -> F E.
  induction before as [|r before IH]; simpl.
  - rewrite (proj2 (String.eqb_eq _ _) E). eexists; reflexivity.
  - inversion F as [|? ? N F']; subst.
    rewrite (proj2 (String.eqb_neq _ _) N). exact (IH F').
Qed.

(** The chain of [if]s of the source is the first matching bucket. *)
Lemma fallback_keyword_rule (comp : string) :
  fallback comp
  = match keyword_rule comp with Some r => r | None => rule_default end.
Proof.
  unfold fallback, keyword_rule, keyword_buckets; simpl.
  destruct (PyStr.str_in "infect" comp); [reflexivity|].
  destruct (PyStr.str_in "bleed" comp); [reflexivity|].
  destruct (PyStr.str_in "organ" comp); [reflexivity|].
  destruct (PyStr.str_in "failure" comp); reflexivity.
Qed.

Lemma resolves_recommend (s : string) :
  resolves s (recommend_from_complication s).
Proof.
  unfold recommend_from_complication, str, Str_string.
  destruct (matching_rows (lower s)) as [|row rest] eqn:Hm.
  - apply matching_rows_nil in Hm. rewrite fallback_keyword_rule.
    destruct (keyword_rule (lower s)) eqn:Hk.
    + now apply resolves_keyword.
    + now apply resolves_default.
  - apply matching_rows_cons in Hm.
    destruct Hm as (before & after & E & F & L).
    eapply resolves_table; eauto.
Qed.

Lemma resolves_unique (s : string) (r : Recommendation) :
  resolves s r -> r = recommend_from_complication s.
Proof.
  unfold recommend_from_complication, str, Str_string.
  intros [before row after E F L | r' N K | N K].
  - destruct (@matching_rows_first (lower s) before after row E F L)
      as [rest ->].
    reflexivity.
  - apply matching_rows_nil in N. rewrite N, fallback_keyword_rule, K.
    reflexivity.
  - apply matching_rows_nil in N. rewrite N, fallback_keyword_rule, K.
    reflexivity.
Qed.

(** ** The resolver *)

(** C1: every complication string, recognised or not, resolves to exactly
    one recommendation: the one [recommend_from_complication] returns is
    reached by a table match, a keyword match or the generic default, no
    other recommendation is, and the same string gives the same
    recommendation on every call. *)
Theorem C1_resolution_total_deterministic (s : string) :
  resolves s (recommend_from_complication s)
  /\ (forall r, resolves s r -> r = recommend_from_complication s)
  /\ (forall s', s' = s ->
        recommend_from_complication s' = recommend_from_complication s).
Proof.
  split; [apply resolves_recommend|].
  split; [apply resolves_unique|].
  intros s' ->. reflexivity.
Qed.

(** C2: when no row of the table carries the label (case aside), the
    keywords are tried on the lowercased label in the order "infect",
    "bleed", then "organ" or "failure", and the first that is a substring
    decides: Antibiotics, 500 mg/day, 7 days; Blood Transfusion +
    Hemostatic Agent, 2 units, 1 days; IV Fluids + Vasopressors, 2 L/day,
    5 days.  A label with both "infect" and "bleed" gets the first. *)
Theorem C2_keyword_order (s : string) :
  matching_rows (lower s) = [] ->
  (PyStr.str_in "infect" (lower s) = true ->
     recommend_from_complication s
     = {| Recommended_Medication := "Antibiotics"; Dosage := "500 mg/day";
          Duration := "7 days"; Source := "rule" |})
  /\ (PyStr.str_in "infect" (lower s) = true ->
      PyStr.str_in "bleed" (lower s) = true ->
        recommend_from_complication s = rule_infect)
  /\ (PyStr.str_in "infect" (lower s) = false ->
      PyStr.str_in "bleed" (lower s) = true ->
        recommend_from_complication s
        = {| Recommended_Medication := "Blood Transfusion + Hemostatic Agent";
             Dosage := "2 units"; Duration := "1 days"; Source := "rule" |})
  /\ (PyStr.str_in "infect" (lower s) = false ->
      PyStr.str_in "bleed" (lower s) = false ->
      PyStr.str_in "organ" (lower s) || PyStr.str_in "failure" (lower s) = true ->
        recommend_from_complication s
        = {| Recommended_Medication := "IV Fluids + Vasopressors";
             Dosage := "2 L/day"; Duration := "5 days"; Source := "rule" |}).
Proof.
  intros Hm. unfold recommend_from_complication, str, Str_string.
  rewrite Hm. unfold fallback.
  repeat split.
  - intros ->. reflexivity.
  - intros -> _. reflexivity.
  - intros -> ->. reflexivity.
  - intros -> -> ->. reflexivity.
Qed.

(** A JSON object with a [Complication] member posted to /recommend is
    answered from the resolver alone: no call is made on the pipeline. *)
Lemma recommend_direct (d : Dict.t json) (comp : json) :
  Dict.find d "Complication" = Some comp ->
  recommend (Ok (JObject d))
  = (jsonify (JObject [("status", JString "ok");
                       ("complication", comp);
                       ("recommendation",
                        json_of_recommendation
                          (recommend_from_complication comp))]),
     []).
Proof.
  intros Hf. unfold recommend, handle, bind, lift, ret, at_line.
  destruct d as [|kv d]; [discriminate|].
  cbn [truthy negb members_of]. rewrite Hf. reflexivity.
Qed.

(** C3: a label that no row of the table carries and that contains none
    of "infect", "bleed", "organ", "failure" (case aside) resolves to the
    generic default, Pain Management, 100 mg/day, 1 days, from "rule";
    posted to /recommend as the [Complication] member of an object, it is
    answered with that recommendation. *)
Theorem C3_generic_default (s : string) :
  matching_rows (lower s) = [] ->
  PyStr.str_in "infect" (lower s) = false ->
  PyStr.str_in "bleed" (lower s) = false ->
  PyStr.str_in "organ" (lower s) = false ->
  PyStr.str_in "failure" (lower s) = false ->
  recommend_from_complication s
  = {| Recommended_Medication := "Pain Management"; Dosage := "100 mg/day";
       Duration := "1 days"; Source := "rule" |}
  /\ fst (recommend (Ok (JObject [("Complication", JString s)])))
     = {| body :=
            JObject [("status", JString "ok");
                     ("complication", JString s);
                     ("recommendation",
                      JObject [("Recommended_Medication", JString "Pain Management");
                               ("Dosage", JString "100 mg/day");
                               ("Duration", JString "1 days");
                               ("Source", JString "rule")])];
          status := 200 |}.
Proof.
  intros Hm Hi Hb Ho Hf.
  assert (E : recommend_from_complication s = rule_default).
  { unfold recommend_from_complication, str, Str_string.
    rewrite Hm. unfold fallback. rewrite Hi, Hb, Ho, Hf. reflexivity. }
  split; [exact E|].
  rewrite (@recommend_direct [("Complication", JString s)] (JString s) eq_refl).
  cbn [fst].
  change (recommend_from_complication (JString s))
    with (recommend_from_complication s).
  rewrite E. reflexivity.
Qed.

(** C9 (amended): every recommendation carries a [Source] that tells a
    table answer from a rule answer: the first row of the table whose
    label equals the input, case aside, is returned with [Source]
    "medication_map.csv", and every keyword or generic-default answer
    with [Source] "rule". *)
Theorem C9_source_tag (s : string) :
  (matching_rows (lower s) <> [] ->
     Source (recommend_from_complication s) = "medication_map.csv")
  /\ (matching_rows (lower s) = [] ->
        Source (recommend_from_complication s) = "rule")
  /\ "medication_map.csv" <> "rule".
Proof.
  unfold recommend_from_complication, str, Str_string.
  repeat split.
  - destruct (matching_rows (lower s)); [congruence | reflexivity].
  - intros ->. unfold fallback.
    destruct (PyStr.str_in "infect" (lower s)); [reflexivity|].
    destruct (PyStr.str_in "bleed" (lower s)); [reflexivity|].
    destruct (PyStr.str_in "organ" (lower s) || PyStr.str_in "failure" (lower s));
      reflexivity.
  - discriminate.
Qed.

(** ** Coercion *)

Lemma find_map_keys {V} (f : string -> V) (ks : list string) (k : string) :
  Dict.find (map (fun c => (c, f c)) ks) k
  = if existsb (String.eqb k) ks then Some (f k) else None.
Proof.
  induction ks as [|a ks IH]; simpl; [reflexivity|].
  rewrite (String.eqb_sym k a).
  destruct (String.eqb_spec a k) as [->|N]; [reflexivity | exact IH].
Qed.

Lemma find_set {V} (d : Dict.t V) (k k' : string) (v : V) :
  Dict.find (Dict.set d k v) k'
  = if String.eqb k k' then Some v else Dict.find d k'.
Proof.
  induction d as [|[a w] d IH]; simpl.
  - reflexivity.
  - destruct (String.eqb_spec a k) as [->|N]; simpl.
    + destruct (String.eqb_spec k k'); reflexivity.
    + rewrite IH. destruct (String.eqb_spec a k') as [->|N'].
      * rewrite (proj2 (String.eqb_neq k k')); [reflexivity | congruence].
      * reflexivity.
Qed.

Lemma mem_keys {V} (d : Dict.t V) (k : string) :
  existsb (String.eqb k) (Dict.keys d) = Dict.mem d k.
Proof.
  unfold Dict.mem, Dict.keys.
  induction d as [|[a w] d IH]; simpl; [reflexivity|].
  rewrite (String.eqb_sym k a).
  destruct (String.eqb a k); [reflexivity | exact IH].
Qed.

Lemma existsb_add_keys (k : string) (ks seen : list string) :
  existsb (String.eqb k)
    (fold_left
       (fun acc c => if existsb (String.eqb c) acc then acc else acc ++ [c])
       ks seen)
  = existsb (String.eqb k) seen || existsb (String.eqb k) ks.
Proof.
  revert seen; induction ks as [|c ks IH]; intros seen; simpl.
  - now rewrite orb_false_r.
  - rewrite IH. destruct (existsb (String.eqb c) seen) eqn:Hc.
    + destruct (String.eqb_spec k c) as [->|N]; simpl.
      * now rewrite Hc.
      * reflexivity.
    + rewrite existsb_app; simpl. rewrite orb_false_r, orb_assoc. reflexivity.
Qed.

Lemma existsb_union_keys (k : string) (records : list (Dict.t json))
  (seen : list string) :
  existsb (String.eqb k) (union_keys seen records)
  = existsb (String.eqb k) seen || existsb (fun r => Dict.mem r k) records.
Proof.
  revert seen; induction records as [|r rs IH]; intros seen; simpl.
  - now rewrite orb_false_r.
  - rewrite IH, existsb_add_keys, mem_keys, orb_assoc. reflexivity.
Qed.

Lemma fill_missing_index (features : list string) (df : DataFrame) :
  index (fill_missing features df) = index df.
Proof.
  unfold fill_missing. revert df.
  induction features as [|c cs IH]; intros df; simpl; [reflexivity|].
  rewrite IH. now destruct (Dict.mem (data df) c).
Qed.

Lemma fill_missing_find (features : list string) (df : DataFrame)
  (k : string) :
  Dict.find (data (fill_missing features df)) k
  = match Dict.find (data df) k with
    | Some column => Some column
    | None => if existsb (String.eqb k) features
              then Some (repeat (Val JNull) (index df))
              else None
    end.
Proof.
  unfold fill_missing. revert df.
  induction features as [|c cs IH]; intros df; simpl.
  - now destruct (Dict.find (data df) k).
  - rewrite IH. unfold Dict.mem.
    destruct (Dict.find (data df) c) eqn:Hc; simpl.
    + destruct (Dict.find (data df) k) eqn:Hk; [reflexivity|].
      destruct (String.eqb_spec k c) as [->|N]; [congruence | reflexivity].
    + rewrite find_set.
      rewrite (String.eqb_sym k c).
      destruct (String.eqb_spec c k) as [->|N]; simpl.
      * now rewrite Hc.
      * now destruct (Dict.find (data df) k).
Qed.

Lemma filter_none {A} (f : A -> bool) (l : list A) :
  (forall a, In a l -> f a = false) -> filter f l = [].
Proof.
  induction l as [|a l IH]; intros H; simpl; [reflexivity|].
  rewrite (H a (or_introl eq_refl)). apply IH.
  intros b Hb. apply H. now right.
Qed.

Lemma getitem_after_fill (features : list string) (df : DataFrame) :
  getitem_columns (fill_missing features df) features
  = Ok {| index := index df;
          data := map (fun c =>
                         (c, match Dict.find (data df) c with
                             | Some column => column
                             | None => repeat (Val JNull) (index df)
                             end))
                      features |}.
Proof.
  assert (Hfind : forall c, In c features ->
            Dict.find (data (fill_missing features df)) c
            = Some match Dict.find (data df) c with
                   | Some column => column
                   | None => repeat (Val JNull) (index df)
                   end).
  { intros c Hc. rewrite fill_missing_find.
    destruct (Dict.find (data df) c); [reflexivity|].
    replace (existsb (String.eqb c) features) with true; [reflexivity|].
    symmetry. apply existsb_exists. exists c. split; [exact Hc|].
    apply String.eqb_refl. }
  unfold getitem_columns.
  replace (not_in_columns (fill_missing features df) features) with (@nil string).
  - rewrite fill_missing_index. f_equal. f_equal.
    apply map_ext_in. intros c Hc. unfold Dict.get.
    now rewrite (Hfind c Hc).
  - symmetry. unfold not_in_columns.
    assert (Hall : forall c, In c features ->
              negb (Dict.mem (data (fill_missing features df)) c) = false).
    { intros c Hc. unfold Dict.mem. now rewrite (Hfind c Hc). }
    apply filter_none. exact Hall.
Qed.

(** The frame [validate_and_build_df] returns for a list of dicts. *)
Lemma coerce_dicts (records : list json) (features : list string) :
  forallb is_object records = true ->
  EXPECTED_FEATURES = Some features ->
  forall payload, records_of payload = Ok records ->
  validate_and_build_df payload
  = Ok {| index := List.length records;
          data := map (fun c => (c, coerced_column (map members_of records) c))
                      features |}.
Proof.
  intros Hobj Hexp payload Hrec.
  unfold validate_and_build_df. rewrite Hrec. unfold pd_DataFrame.
  rewrite Hobj, Hexp. cbn [at_line]. rewrite getitem_after_fill.
  cbn [at_line]. unfold DataFrame_of_dicts; cbn [index data].
  rewrite length_map. f_equal. f_equal.
  apply map_ext. intros c. f_equal.
  rewrite find_map_keys, existsb_union_keys. cbn [existsb orb].
  unfold coerced_column, supplied_column. rewrite length_map.
  now destruct (existsb (fun r => Dict.mem r c) (map members_of records)).
Qed.

Lemma find_perm {V} (d d' : Dict.t V) (k : string) :
  NoDup (Dict.keys d) -> Permutation d d' -> Dict.find d k = Dict.find d' k.
Proof.
  intros Hnd Hp. induction Hp as [|[a v] d d' Hp IH|[a v] [b w] d|d d' d'' H1 IH1 H2 IH2].
  - reflexivity.
  - simpl. inversion Hnd; subst. now rewrite IH.
  - simpl. inversion Hnd as [|? ? Hin _]; subst.
    destruct (String.eqb_spec b k) as [->|Nb];
      destruct (String.eqb_spec a k) as [->|Na]; try reflexivity.
    exfalso. apply Hin. now left.
  - rewrite IH1 by assumption. apply IH2.
    unfold Dict.keys in *.
    eapply Permutation_NoDup; [apply Permutation_map; exact H1 | exact Hnd].
Qed.

Lemma coerced_column_reordered (records records' : list json) (col : string) :
  Forall2 reordered records records' ->
  coerced_column (map members_of records) col
  = coerced_column (map members_of records') col.
Proof.
  intros HF. unfold coerced_column, supplied_column.
  assert (Hcell : map (fun r => cell_of r col) (map members_of records)
                  = map (fun r => cell_of r col) (map members_of records')).
  { clear - HF.
    induction HF as [|r r' rs rs' (_ & _ & Hnd & Hp) _ IH]; simpl; [reflexivity|].
    unfold cell_of at 1 3. now rewrite (find_perm col Hnd Hp), IH. }
  assert (Hmem : existsb (fun r => Dict.mem r col) (map members_of records)
                 = existsb (fun r => Dict.mem r col) (map members_of records')).
  { clear - HF.
    induction HF as [|r r' rs rs' (_ & _ & Hnd & Hp) _ IH]; simpl; [reflexivity|].
    unfold Dict.mem at 1 3. now rewrite (find_perm col Hnd Hp), IH. }
  rewrite Hcell, Hmem, !length_map, (Forall2_length HF). reflexivity.
Qed.

Lemma feature_payload_records (payload : json) :
  feature_payload payload = true ->
  exists records,
    records_of payload = Ok records /\ forallb is_object records = true.
Proof.
  destruct payload; simpl; try discriminate.
  - intros H. eexists; split; [reflexivity | exact H].
  - intros _. eexists; split; reflexivity.
Qed.

Lemma coerced_column_length (records : list (Dict.t json)) (col : string) :
  List.length (coerced_column records col) = List.length records.
Proof.
  unfold coerced_column, infer_objects, supplied_column.
  destruct (existsb _ records);
    [now rewrite !length_map | apply repeat_length].
Qed.

Lemma coerced_column_nth (records : list (Dict.t json)) (col : string)
  (i : nat) (r : Dict.t json) :
  nth_error records i = Some r ->
  match Dict.find r col with
  | Some v =>
      nth_error (coerced_column records col) i
      = Some (infer_cell stored_value keeps_None
                (supplied_column records col) (Val v))
  | None => exists c, nth_error (coerced_column records col) i = Some c
                      /\ is_missing c = true
  end.
Proof.
  intros Hi. unfold coerced_column.
  destruct (existsb (fun r => Dict.mem r col) records) eqn:He.
  - unfold infer_objects. rewrite nth_error_map.
    assert (Hs : nth_error (supplied_column records col) i
                 = Some (cell_of r col)).
    { unfold supplied_column. now rewrite nth_error_map, Hi. }
    rewrite Hs. cbn [option_map]. unfold cell_of.
    destruct (Dict.find r col); [reflexivity|].
    exists NaN. split; reflexivity.
  - assert (Hr : Dict.mem r col = false).
    { destruct (Dict.mem r col) eqn:Hm; [|reflexivity].
      rewrite <- He. symmetry. apply existsb_exists. exists r.
      split; [eapply nth_error_In; exact Hi | exact Hm]. }
    unfold Dict.mem in Hr. destruct (Dict.find r col); [discriminate|].
    exists (Val JNull). split; [|reflexivity].
    apply nth_error_repeat. apply nth_error_Some. congruence.
Qed.

(** C6: a single JSON object or an array of objects is accepted and
    coerced to a frame whose columns are the 15 expected feature names in
    the training order, one row per record in the order given; a cell
    holds what pandas stores, in the dtype of its column, for the value
    the record gives the feature, and a missing marker where the record
    lacks it; the key order of the objects does not change the frame. *)
Theorem C6_coercion (payload : json) (records : list json) :
  feature_payload payload = true ->
  records_of payload = Ok records ->
  exists df,
    validate_and_build_df payload = Ok df
    /\ columns df
       = ["Age"; "Gender"; "BMI"; "ASA_Score"; "Diabetes"; "Hypertension";
          "Heart_Disease"; "Preop_Hb"; "Preop_WBC"; "Surgery_Type";
          "Duration_Min"; "Blood_Loss_ml"; "Vital_Instability";
          "Postop_Hb"; "Postop_WBC"]
    /\ index df = List.length records
    /\ (forall col, In col (columns df) ->
          exists column,
            Dict.find (data df) col = Some column
            /\ List.length column = List.length records
            /\ forall i r, nth_error records i = Some r ->
                 match Dict.find (members_of r) col with
                 | Some v =>
                     nth_error column i
                     = Some (infer_cell stored_value keeps_None
                               (supplied_column (map members_of records) col)
                               (Val v))
                 | None => exists c, nth_error column i = Some c
                                     /\ is_missing c = true
                 end)
    /\ (forall payload', same_up_to_key_order payload payload' ->
          validate_and_build_df payload' = validate_and_build_df payload).
Proof.
  intros Hfp Hrec.
  destruct (feature_payload_records payload Hfp) as (records0 & Hrec0 & Hobj).
  rewrite Hrec in Hrec0. injection Hrec0 as <-.
  pose proof (@coerce_dicts records _ Hobj eq_refl payload Hrec) as Hdf.
  eexists. split; [exact Hdf|].
  split; [reflexivity|]. split; [reflexivity|]. split.
  - intros col Hcol. unfold columns, Dict.keys in Hcol. cbn [data] in Hcol.
    rewrite map_map in Hcol. cbn [fst] in Hcol. rewrite map_id in Hcol.
    exists (coerced_column (map members_of records) col).
    split; [|split].
    + cbn [data]. rewrite find_map_keys.
      replace (existsb (String.eqb col) _) with true; [reflexivity|].
      symmetry. apply existsb_exists. exists col.
      split; [exact Hcol | apply String.eqb_refl].
    + rewrite coerced_column_length. apply length_map.
    + intros i r Hi. apply coerced_column_nth.
      rewrite nth_error_map, Hi. reflexivity.
  - intros payload' Hsame. rewrite Hdf.
    inversion Hsame as [d d' Hre Hp Hp'|items items' HF Hp Hp']; subst.
    + simpl in Hrec. injection Hrec as <-.
      rewrite (@coerce_dicts [JObject d'] _ eq_refl eq_refl (JObject d') eq_refl).
      f_equal. f_equal. apply map_ext. intros c. f_equal.
      symmetry. apply coerced_column_reordered. constructor; [exact Hre | constructor].
    + simpl in Hrec. injection Hrec as <-.
      assert (Hobj' : forallb is_object items' = true).
      { clear - HF. induction HF as [|r r' rs rs' (_ & Ho & _) _ IH]; simpl;
          [reflexivity|]. now rewrite Ho, IH. }
      rewrite (@coerce_dicts items' _ Hobj' eq_refl (JArray items') eq_refl).
      rewrite (Forall2_length HF).
      f_equal. f_equal. apply map_ext. intros c. f_equal.
      symmetry. now apply coerced_column_reordered.
Qed.

(** ** The handlers *)

Ltac run_handler :=
  unfold handle, bind, lift, ret, raise, model_predict, try_predict_proba;
  cbn beta iota; cbn [app at_line].

Lemma predict_get_json_raises (e : exn) :
  predict (Raise e) = (error_response (through_frame "predict" 102 e), [])
  /\ recommend (Raise e)
     = (error_response (through_frame "recommend" 130 e), [])
  /\ predict_recommend (Raise e)
     = (error_response (through_frame "predict_recommend" 155 e), []).
Proof. repeat split. Qed.

Lemma coercion_raises (payload : json) (e : exn) :
  validate_and_build_df payload = Raise e ->
  predict (Ok payload) = (error_response (through_frame "predict" 103 e), [])
  /\ predict_recommend (Ok payload)
     = (error_response (through_frame "predict_recommend" 156 e), []).
Proof.
  intros H. unfold predict, predict_recommend. run_handler.
  rewrite H. split; reflexivity.
Qed.

Lemma validate_object (d : Dict.t json) :
  exists df, validate_and_build_df (JObject d) = Ok df.
Proof.
  eexists. apply (@coerce_dicts [JObject d] _ eq_refl eq_refl (JObject d) eq_refl).
Qed.

Lemma recommend_coercion_raises (payload : json) (e : exn) :
  truthy payload = true ->
  validate_and_build_df payload = Raise e ->
  recommend (Ok payload)
  = (error_response (through_frame "recommend" 139 e), []).
Proof.
  intros Ht H. unfold recommend. run_handler. rewrite Ht. cbn [negb].
  destruct payload; try (cbn [members_of Dict.find]; rewrite H; reflexivity).
  destruct (validate_object members) as [df Hdf]. congruence.
Qed.

Lemma recommend_empty (payload : json) :
  truthy payload = false ->
  recommend (Ok payload)
  = (error_response
       (through_frame "recommend" 132 (ValueError "Empty request body")),
     []).
Proof.
  intros Ht. unfold recommend. run_handler. rewrite Ht. reflexivity.
Qed.

Lemma recommend_predicted (payload : json) (df : DataFrame) :
  truthy payload = true ->
  Dict.find (members_of payload) "Complication" = None ->
  validate_and_build_df payload = Ok df ->
  recommend (Ok payload)
  = (match predict_of model df with
     | Ok preds => jsonify (ok_body "recommendations" (map recommend_entry preds))
     | Raise e => error_response (through_frame "recommend" 140 e)
     end, [CallPredict df]).
Proof.
  intros Ht Hc Hdf. unfold recommend. run_handler.
  rewrite Ht, Hc, Hdf. cbn [negb at_line].
  destruct (predict_of model df); reflexivity.
Qed.

Lemma predict_runs (payload : json) (df : DataFrame) :
  validate_and_build_df payload = Ok df ->
  predict (Ok payload)
  = match predict_of model df with
    | Raise e =>
        (error_response (through_frame "predict" 104 e), [CallPredict df])
    | Ok preds =>
        (match for_enumerate (predict_entry (probs_of df)) 0 preds with
         | Ok results => jsonify (ok_body "predictions" results)
         | Raise e => error_response (through_frame "predict" 116 e)
         end, CallPredict df :: proba_calls df)
    end.
Proof.
  intros Hdf. unfold predict, probs_of, proba_calls. run_handler. rewrite Hdf.
  cbn [at_line].
  destruct (predict_of model df) as [preds|e]; [|reflexivity].
  unfold predict_entry. cbn [at_line].
  destruct (predict_proba_of model) as [predict_proba|];
    [destruct (predict_proba df) as [probs|e]|]; cbn beta iota;
    match goal with
    | |- context [for_enumerate ?f 0 preds] =>
        destruct (for_enumerate f 0 preds); reflexivity
    end.
Qed.

Lemma predict_recommend_runs (payload : json) (df : DataFrame) :
  validate_and_build_df payload = Ok df ->
  predict_recommend (Ok payload)
  = match predict_of model df with
    | Raise e =>
        (error_response (through_frame "predict_recommend" 157 e),
         [CallPredict df])
    | Ok preds =>
        (match for_enumerate (predict_recommend_entry (probs_of df)) 0 preds with
         | Ok out => jsonify (ok_body "results" out)
         | Raise e => error_response (through_frame "predict_recommend" 170 e)
         end, CallPredict df :: proba_calls df)
    end.
Proof.
  intros Hdf. unfold predict_recommend, probs_of, proba_calls. run_handler.
  rewrite Hdf. cbn [at_line].
  destruct (predict_of model df) as [preds|e]; [|reflexivity].
  unfold predict_recommend_entry. cbn [at_line].
  destruct (predict_proba_of model) as [predict_proba|];
    [destruct (predict_proba df) as [probs|e]|]; cbn beta iota zeta;
    match goal with
    | |- context [for_enumerate ?f 0 preds] =>
        destruct (for_enumerate f 0 preds); reflexivity
    end.
Qed.

Lemma for_enumerate_map {A B C} (f : nat -> A -> except B)
  (g : B -> C) (h : A -> C) :
  (forall i a b, f i a = Ok b -> g b = h a) ->
  forall l i bs, for_enumerate f i l = Ok bs -> map g bs = map h l.
Proof.
  intros Hf. induction l as [|a l IH]; intros i bs; simpl.
  - intros H. injection H as <-. reflexivity.
  - destruct (f i a) as [b|e] eqn:Hb; [|discriminate].
    destruct (for_enumerate f (S i) l) as [bs'|e] eqn:Hl; [|discriminate].
    intros H. injection H as <-. simpl.
    now rewrite (Hf _ _ _ Hb), (IH _ _ Hl).
Qed.

Lemma for_enumerate_ok {A B} (f : nat -> A -> except B) :
  forall l i,
    (forall j a, i <= j < i + List.length l -> exists b, f j a = Ok b) ->
    exists bs, for_enumerate f i l = Ok bs.
Proof.
  induction l as [|a l IH]; intros i Hf; simpl.
  - eexists; reflexivity.
  - destruct (Hf i a) as [b ->]; [simpl; lia|].
    destruct (IH (S i)) as [bs ->].
    + intros j a' Hj. apply Hf. simpl. lia.
    + eexists; reflexivity.
Qed.

Lemma with_probabilities_label (probs : option (list (list float)))
  (idx : nat) (label : json) (rest : Dict.t json) (entry : json) :
  with_probabilities probs idx (("Complication", label) :: rest) = Ok entry ->
  entry_label entry = Some label.
Proof.
  unfold with_probabilities. destruct probs as [rows|].
  - destruct (probabilities rows idx); [|discriminate].
    intros H. injection H as <-. reflexivity.
  - intros H. injection H as <-. reflexivity.
Qed.

Lemma with_probabilities_ok (probs : option (list (list float)))
  (n idx : nat) (entry : Dict.t json) :
  probs_cover probs n -> idx < n ->
  exists e, with_probabilities probs idx entry = Ok e.
Proof.
  unfold with_probabilities, probs_cover, probabilities.
  destruct probs as [rows|]; [|eexists; reflexivity].
  intros Hn Hi.
  destruct (nth_error rows idx) as [row|] eqn:Hrow.
  - destruct (classes_ model) as [[|c cs]|]; eexists; reflexivity.
  - apply nth_error_None in Hrow. lia.
Qed.

Lemma map_entry_label_length (results : list json) (preds : list string) :
  map entry_label results = map (fun p => Some (JString p)) preds ->
  List.length results = List.length preds.
Proof.
  intros H. apply (f_equal (@List.length _)) in H.
  now rewrite !length_map in H.
Qed.

(** C5: /recommend answers an object that has a [Complication] member
    from the resolver alone, with no call on the pipeline, as
    [{status: "ok", complication, recommendation}]; any other non-empty
    body is coerced, [predict] is the one call made on the pipeline, and
    the answer is [{status: "ok", recommendations: [...]}] with one
    [{Complication, Recommendation}] entry per predicted label, in
    order.  Coercion succeeds on every object and array of objects. *)
Theorem C5_recommend_dispatch :
  (forall d comp,
      Dict.find d "Complication" = Some comp ->
      recommend (Ok (JObject d))
      = ({| body :=
              JObject [("status", JString "ok");
                       ("complication", comp);
                       ("recommendation",
                        json_of_recommendation
                          (recommend_from_complication comp))];
            status := 200 |},
         []))
  /\ (forall payload df preds,
        truthy payload = true ->
        Dict.find (members_of payload) "Complication" = None ->
        validate_and_build_df payload = Ok df ->
        predict_of model df = Ok preds ->
        recommend (Ok payload)
        = ({| body :=
                JObject [("status", JString "ok");
                         ("recommendations",
                          JArray
                            (map (fun p =>
                                    JObject
                                      [("Complication", JString p);
                                       ("Recommendation",
                                        json_of_recommendation
                                          (recommend_from_complication p))])
                                 preds))];
              status := 200 |},
           [CallPredict df]))
  /\ (forall payload,
        feature_payload payload = true ->
        exists df, validate_and_build_df payload = Ok df).
Proof.
  split; [|split].
  - intros d comp H. now rewrite (recommend_direct d H).
  - intros payload df preds Ht Hc Hdf Hp.
    rewrite (recommend_predicted payload Ht Hc Hdf), Hp. reflexivity.
  - intros payload Hfp.
    destruct (feature_payload_records payload Hfp) as (records & Hrec & Hobj).
    eexists. exact (@coerce_dicts records _ Hobj eq_refl payload Hrec).
Qed.

(** C7: for an array of N feature objects, when the model returns one
    prediction per row of the frame, a success response of /predict and
    of /predict_recommend holds exactly N entries, the i-th carrying the
    i-th prediction; the frame has N rows; and the response is a success
    whenever [predict_proba] is unavailable or gives a row for each
    prediction. *)
Theorem C7_one_entry_per_row (items : list json) (df : DataFrame)
  (preds : list string) :
  forallb is_object items = true ->
  validate_and_build_df (JArray items) = Ok df ->
  predict_of model df = Ok preds ->
  List.length preds = index df ->
  index df = List.length items
  /\ (status (fst (predict (Ok (JArray items)))) = 200 ->
      exists results,
        body (fst (predict (Ok (JArray items))))
        = JObject [("status", JString "ok"); ("predictions", JArray results)]
        /\ List.length results = List.length items
        /\ map entry_label results = map (fun p => Some (JString p)) preds)
  /\ (status (fst (predict_recommend (Ok (JArray items)))) = 200 ->
      exists out,
        body (fst (predict_recommend (Ok (JArray items))))
        = JObject [("status", JString "ok"); ("results", JArray out)]
        /\ List.length out = List.length items
        /\ map entry_label out = map (fun p => Some (JString p)) preds)
  /\ (probs_cover (probs_of df) (List.length preds) ->
      status (fst (predict (Ok (JArray items)))) = 200
      /\ status (fst (predict_recommend (Ok (JArray items)))) = 200).
Proof.
  intros Hobj Hdf Hp Hlen.
  assert (Hidx : index df = List.length items).
  { rewrite (@coerce_dicts items _ Hobj eq_refl (JArray items) eq_refl) in Hdf.
    injection Hdf as <-. reflexivity. }
  split; [exact Hidx|].
  rewrite (predict_runs _ Hdf), (predict_recommend_runs _ Hdf), Hp.
  cbn [fst]. split; [|split].
  - destruct (for_enumerate (predict_entry (probs_of df)) 0 preds)
      as [results|e] eqn:Hr; [|discriminate].
    intros _. exists results.
    assert (Hl : map entry_label results = map (fun p => Some (JString p)) preds).
    { refine (@for_enumerate_map _ _ _ (predict_entry (probs_of df))
                entry_label (fun p => Some (JString p)) _ preds 0 results Hr).
      intros i a b. unfold predict_entry. apply with_probabilities_label. }
    repeat split; [|exact Hl].
    rewrite (map_entry_label_length _ _ Hl). congruence.
  - destruct (for_enumerate (predict_recommend_entry (probs_of df)) 0 preds)
      as [out|e] eqn:Hr; [|discriminate].
    intros _. exists out.
    assert (Hl : map entry_label out = map (fun p => Some (JString p)) preds).
    { refine (@for_enumerate_map _ _ _ (predict_recommend_entry (probs_of df))
                entry_label (fun p => Some (JString p)) _ preds 0 out Hr).
      intros i a b. unfold predict_recommend_entry.
      apply with_probabilities_label. }
    repeat split; [|exact Hl].
    rewrite (map_entry_label_length _ _ Hl). congruence.
  - intros Hcover. split.
    + destruct (@for_enumerate_ok _ _ (predict_entry (probs_of df)) preds 0)
        as [results ->]; [|reflexivity].
      intros j a Hj. unfold predict_entry.
      apply with_probabilities_ok with (n := List.length preds);
        [exact Hcover | lia].
    + destruct (@for_enumerate_ok _ _ (predict_recommend_entry (probs_of df)) preds 0)
        as [out ->]; [|reflexivity].
      intros j a Hj. unfold predict_recommend_entry.
      apply with_probabilities_ok with (n := List.length preds);
        [exact Hcover | lia].
Qed.

Lemma for_enumerate_pure {A B} (f : nat -> A -> except B) (g : A -> B) :
  (forall i a, f i a = Ok (g a)) ->
  forall l i, for_enumerate f i l = Ok (map g l).
Proof.
  intros Hf. induction l as [|a l IH]; intros i; simpl; [reflexivity|].
  now rewrite Hf, IH.
Qed.

Lemma predict_answered (get_json : except json) :
  answered (fst (predict get_json)).
Proof.
  destruct get_json as [payload|e]; [|right; eexists; reflexivity].
  destruct (validate_and_build_df payload) as [df|e] eqn:Hdf.
  - rewrite (predict_runs _ Hdf).
    destruct (predict_of model df) as [preds|e]; [|right; eexists; reflexivity].
    destruct (for_enumerate _ 0 preds); cbn [fst].
    + left. split; [reflexivity | eexists; reflexivity].
    + right; eexists; reflexivity.
  - rewrite (proj1 (coercion_raises _ Hdf)). right; eexists; reflexivity.
Qed.

Lemma predict_recommend_answered (get_json : except json) :
  answered (fst (predict_recommend get_json)).
Proof.
  destruct get_json as [payload|e]; [|right; eexists; reflexivity].
  destruct (validate_and_build_df payload) as [df|e] eqn:Hdf.
  - rewrite (predict_recommend_runs _ Hdf).
    destruct (predict_of model df) as [preds|e]; [|right; eexists; reflexivity].
    destruct (for_enumerate _ 0 preds); cbn [fst].
    + left. split; [reflexivity | eexists; reflexivity].
    + right; eexists; reflexivity.
  - rewrite (proj2 (coercion_raises _ Hdf)). right; eexists; reflexivity.
Qed.

Lemma recommend_answered (get_json : except json) :
  answered (fst (recommend get_json)).
Proof.
  destruct get_json as [payload|e]; [|right; eexists; reflexivity].
  destruct (truthy payload) eqn:Ht.
  2:{ rewrite (recommend_empty _ Ht). right; eexists; reflexivity. }
  destruct (Dict.find (members_of payload) "Complication") as [comp|] eqn:Hc.
  - destruct payload; try discriminate Hc. cbn [members_of] in Hc.
    rewrite (recommend_direct _ Hc). left.
    split; [reflexivity | eexists; reflexivity].
  - destruct (validate_and_build_df payload) as [df|e] eqn:Hdf.
    + rewrite (recommend_predicted _ Ht Hc Hdf).
      destruct (predict_of model df); cbn [fst].
      * left. split; [reflexivity | eexists; reflexivity].
      * right; eexists; reflexivity.
    + rewrite (recommend_coercion_raises _ Ht Hdf). right; eexists; reflexivity.
Qed.

Lemma runs_without_probs (payload : json) (df : DataFrame)
  (preds : list string) :
  validate_and_build_df payload = Ok df ->
  predict_of model df = Ok preds ->
  probs_of df = None ->
  fst (predict (Ok payload))
  = jsonify (ok_body "predictions"
               (map (fun p => JObject [("Complication", JString p)]) preds))
  /\ fst (predict_recommend (Ok payload))
     = jsonify (ok_body "results" (map recommend_entry preds)).
Proof.
  intros Hdf Hp Hnone.
  rewrite (predict_runs _ Hdf), (predict_recommend_runs _ Hdf), Hp, Hnone.
  cbn [fst]. split.
  - rewrite for_enumerate_pure
      with (g := fun p => JObject [("Complication", JString p)]);
      reflexivity.
  - rewrite for_enumerate_pure with (g := recommend_entry); reflexivity.
Qed.

(** C8 (amended): a body that is neither an object nor an array posted to
    /predict is rejected by coercion with a [ValueError]; in each of the
    three handlers an exception raised by [request.get_json()], by
    coercion or by [model.predict] is answered with status 400 and the
    body [{status: "error", error: str(e), trace}], the trace being that
    of the exception once it has gone through the line of the handler;
    every response is either that or a 200 whose [status] is "ok".  An
    exception raised in the inner [try], by [predict_proba] or because
    the pipeline has no such attribute, is caught there: the response is
    then the success response without [Probabilities]. *)
Theorem C8_exceptions_answered :
  (forall payload,
      is_object payload = false -> is_array payload = false ->
      validate_and_build_df payload
      = Raise (through_frame "validate_and_build_df" 79
                 (ValueError "Payload must be a JSON object or array of objects."))
      /\ predict (Ok payload)
         = ({| body :=
                 JObject
                   [("status", JString "error");
                    ("error",
                     JString "Payload must be a JSON object or array of objects.");
                    ("trace",
                     JString
                       (format_exc
                          (through_frame "predict" 103
                             (through_frame "validate_and_build_df" 79
                                (ValueError
                                   "Payload must be a JSON object or array of objects.")))))];
               status := 400 |},
            []))
  /\ (forall e,
        predict (Raise e) = (error_response (through_frame "predict" 102 e), [])
        /\ recommend (Raise e)
           = (error_response (through_frame "recommend" 130 e), [])
        /\ predict_recommend (Raise e)
           = (error_response (through_frame "predict_recommend" 155 e), []))
  /\ (forall payload e,
        validate_and_build_df payload = Raise e ->
        predict (Ok payload)
        = (error_response (through_frame "predict" 103 e), [])
        /\ predict_recommend (Ok payload)
           = (error_response (through_frame "predict_recommend" 156 e), [])
        /\ (truthy payload = true ->
            recommend (Ok payload)
            = (error_response (through_frame "recommend" 139 e), [])))
  /\ (forall payload df e,
        validate_and_build_df payload = Ok df ->
        predict_of model df = Raise e ->
        predict (Ok payload)
        = (error_response (through_frame "predict" 104 e), [CallPredict df])
        /\ predict_recommend (Ok payload)
           = (error_response (through_frame "predict_recommend" 157 e),
              [CallPredict df])
        /\ (truthy payload = true ->
            Dict.find (members_of payload) "Complication" = None ->
            recommend (Ok payload)
            = (error_response (through_frame "recommend" 140 e),
               [CallPredict df])))
  /\ (forall get_json,
        answered (fst (predict get_json))
        /\ answered (fst (recommend get_json))
        /\ answered (fst (predict_recommend get_json)))
  /\ (forall payload df preds,
        validate_and_build_df payload = Ok df ->
        predict_of model df = Ok preds ->
        (predict_proba_of model = None
         \/ exists predict_proba e,
              predict_proba_of model = Some predict_proba
              /\ predict_proba df = Raise e) ->
        fst (predict (Ok payload))
        = jsonify (ok_body "predictions"
                     (map (fun p => JObject [("Complication", JString p)]) preds))
        /\ fst (predict_recommend (Ok payload))
           = jsonify (ok_body "results"
                        (map (fun p =>
                                JObject
                                  [("Complication", JString p);
                                   ("Recommendation",
                                    json_of_recommendation
                                      (recommend_from_complication p))])
                             preds))).
Proof.
  split; [|split; [|split; [|split; [|split]]]].
  - intros payload Ho Ha.
    assert (H : validate_and_build_df payload
                = Raise (through_frame "validate_and_build_df" 79
                           (ValueError "Payload must be a JSON object or array of objects."))).
    { destruct payload; try discriminate; reflexivity. }
    split; [exact H|]. now rewrite (proj1 (coercion_raises _ H)).
  - apply predict_get_json_raises.
  - intros payload e H. destruct (coercion_raises _ H) as [H1 H2].
    repeat split; [exact H1 | exact H2|].
    intros Ht. now apply recommend_coercion_raises.
  - intros payload df e Hdf Hp.
    rewrite (predict_runs _ Hdf), (predict_recommend_runs _ Hdf), Hp.
    repeat split. intros Ht Hc.
    now rewrite (recommend_predicted _ Ht Hc Hdf), Hp.
  - intros get_json.
    repeat split;
      [apply predict_answered | apply recommend_answered
       | apply predict_recommend_answered].
  - intros payload df preds Hdf Hp Hpp.
    apply (runs_without_probs payload Hdf Hp).
    unfold probs_of.
    destruct Hpp as [Hattr|(predict_proba & e & Hattr & Hpp)].
    + now rewrite Hattr.
    + now rewrite Hattr, Hpp.
Qed.

(** C10: /recommend rejects every falsy body, among them [{}], [[]],
    [null], [0], [false] and [""], with [ValueError("Empty request
    body")] answered as a 400 and with no call on the pipeline, before
    the body is looked at for a [Complication] member or for its shape;
    /predict and /predict_recommend coerce [{}] to a single row that is
    [None] in each of the 15 columns and hand it to [model.predict]. *)
Theorem C10_empty_body :
  (forall payload,
      truthy payload = false ->
      recommend (Ok payload)
      = ({| body :=
              JObject
                [("status", JString "error");
                 ("error", JString "Empty request body");
                 ("trace",
                  JString (format_exc
                             (through_frame "recommend" 132
                                (ValueError "Empty request body"))))];
            status := 400 |},
         []))
  /\ Forall (fun payload => truthy payload = false)
       [JObject []; JArray []; JNull; JInt 0; JBool false; JString ""]
  /\ validate_and_build_df (JObject []) = Ok all_null_row
  /\ index all_null_row = 1
  /\ List.length (data all_null_row) = 15
  /\ Forall (fun column => snd column = [Val JNull]) (data all_null_row)
  /\ (exists rest,
        snd (predict (Ok (JObject []))) = CallPredict all_null_row :: rest)
  /\ (exists rest,
        snd (predict_recommend (Ok (JObject [])))
        = CallPredict all_null_row :: rest).
Proof.
  assert (Hdf : validate_and_build_df (JObject []) = Ok all_null_row)
    by reflexivity.
  split; [|split; [|split; [|split; [|split; [|split; [|split]]]]]].
  - intros payload Ht. now rewrite (recommend_empty _ Ht).
  - repeat constructor.
  - exact Hdf.
  - reflexivity.
  - reflexivity.
  - repeat constructor.
  - rewrite (predict_runs _ Hdf).
    destruct (predict_of model all_null_row); eexists; reflexivity.
  - rewrite (predict_recommend_runs _ Hdf).
    destruct (predict_of model all_null_row); eexists; reflexivity.
Qed.

(** ** Calls on the pipeline, and the three handlers side by side *)

(** X1: /recommend makes no call on the pipeline, or the single call
    [model.predict] on the coerced frame: it never asks for
    probabilities. *)
Theorem recommend_calls (get_json : except json) :
  snd (recommend get_json) = []
  \/ exists payload df,
       get_json = Ok payload
       /\ validate_and_build_df payload = Ok df
       /\ snd (recommend get_json) = [CallPredict df].
Proof.
  destruct get_json as [payload|e]; [|left; reflexivity].
  destruct (truthy payload) eqn:Ht.
  2:{ left. now rewrite (recommend_empty _ Ht). }
  destruct (Dict.find (members_of payload) "Complication") as [comp|] eqn:Hc.
  - destruct payload; try discriminate Hc. cbn [members_of] in Hc.
    left. now rewrite (recommend_direct _ Hc).
  - destruct (validate_and_build_df payload) as [df|e] eqn:Hdf.
    + right. exists payload, df.
      split; [reflexivity|]. split; [exact Hdf|].
      now rewrite (recommend_predicted _ Ht Hc Hdf).
    + left. now rewrite (recommend_coercion_raises _ Ht Hdf).
Qed.

Lemma for_enumerate_rel {A B C} (R : B -> C -> Prop)
  (f : nat -> A -> except B) (g : nat -> A -> except C) :
  (forall i a,
      match f i a, g i a with
      | Ok b, Ok c => R b c
      | Raise e, Raise e' => e = e'
      | _, _ => False
      end) ->
  forall l i,
    match for_enumerate f i l, for_enumerate g i l with
    | Ok bs, Ok cs => Forall2 R bs cs
    | Raise e, Raise e' => e = e'
    | _, _ => False
    end.
Proof.
  intros H. induction l as [|a l IH]; intros i; simpl; [constructor|].
  specialize (H i a). specialize (IH (S i)).
  destruct (f i a) as [b|e], (g i a) as [c|e']; try contradiction; [|exact H].
  destruct (for_enumerate f (S i) l), (for_enumerate g (S i) l);
    try contradiction; [|exact IH].
  now constructor.
Qed.

Lemma entries_side_by_side (probs : option (list (list float)))
  (i : nat) (p : string) :
  match predict_entry probs i p, predict_recommend_entry probs i p with
  | Ok e, Ok e' => extends_entry e e'
  | Raise x, Raise x' => x = x'
  | _, _ => False
  end.
Proof.
  unfold predict_entry, predict_recommend_entry, with_probabilities.
  destruct probs as [rows|].
  - destruct (probabilities rows i) as [v|x]; [|reflexivity].
    repeat split. exists p. split; reflexivity.
  - repeat split. exists p. split; reflexivity.
Qed.

Lemma runs_side_by_side (probs : option (list (list float)))
  (preds : list string) :
  match for_enumerate (predict_entry probs) 0 preds,
        for_enumerate (predict_recommend_entry probs) 0 preds with
  | Ok results, Ok out => Forall2 extends_entry results out
  | Raise x, Raise x' => x = x'
  | _, _ => False
  end.
Proof.
  apply (for_enumerate_rel extends_entry (predict_entry probs)
           (predict_recommend_entry probs)).
  intros i a. apply entries_side_by_side.
Qed.

(** X2: /predict and /predict_recommend make the same calls on the pipeline
    for a request: none when the body does not parse or coerce,
    [predict] on the coerced frame, and [predict_proba] on the same
    frame only once [predict] has returned and only where the pipeline
    has the attribute.  They answer with the same status and the same
    [error] member; when the status is 400 the two error responses come
    from the same exception, gone through the matching lines of the two
    handlers, so each carries its own trace. *)
Theorem predict_call_protocol (get_json : except json) :
  snd (predict get_json) = predict_calls get_json
  /\ snd (predict_recommend get_json) = predict_calls get_json
  /\ status (fst (predict get_json))
     = status (fst (predict_recommend get_json))
  /\ (status (fst (predict get_json)) = 400 ->
      exists e line line',
        In (line, line') [(102, 155); (103, 156); (104, 157); (116, 170)]
        /\ fst (predict get_json)
           = error_response (through_frame "predict" line e)
        /\ fst (predict_recommend get_json)
           = error_response (through_frame "predict_recommend" line' e))
  /\ Dict.find (members_of (body (fst (predict get_json)))) "error"
     = Dict.find (members_of (body (fst (predict_recommend get_json))))
         "error".
Proof.
  unfold predict_calls.
  destruct get_json as [payload|e].
  2:{ split; [reflexivity|]. split; [reflexivity|]. split; [reflexivity|].
      split; [|reflexivity].
      intros _. exists e, 102, 155. cbn [In]. auto. }
  destruct (validate_and_build_df payload) as [df|e] eqn:Hdf.
  - rewrite (predict_runs _ Hdf), (predict_recommend_runs _ Hdf).
    destruct (predict_of model df) as [preds|e].
    2:{ split; [reflexivity|]. split; [reflexivity|]. split; [reflexivity|].
        split; [|reflexivity].
        intros _. exists e, 104, 157. cbn [In]. auto. }
    pose proof (runs_side_by_side (probs_of df) preds) as H.
    destruct (for_enumerate (predict_entry (probs_of df)) 0 preds) as [rs|x],
             (for_enumerate (predict_recommend_entry (probs_of df)) 0 preds)
               as [out|x'];
      try contradiction; cbn [fst snd].
    + split; [reflexivity|]. split; [reflexivity|]. split; [reflexivity|].
      split; [discriminate | reflexivity].
    + subst x'.
      split; [reflexivity|]. split; [reflexivity|]. split; [reflexivity|].
      split; [|reflexivity].
      intros _. exists x, 116, 170. cbn [In]. auto 6.
  - destruct (coercion_raises _ Hdf) as [-> ->].
    split; [reflexivity|]. split; [reflexivity|]. split; [reflexivity|].
    split; [|reflexivity].
    intros _. exists e, 103, 156. cbn [In]. auto.
Qed.

(** X3: When /predict answers a body with a list of predictions,
    /predict_recommend answers it with a list of the same length whose
    entries carry the same label and probabilities, each with the
    recommendation the resolver gives its label. *)
Theorem predict_recommend_extends_predict (payload : json)
  (results : list json) :
  fst (predict (Ok payload)) = jsonify (ok_body "predictions" results) ->
  exists out,
    fst (predict_recommend (Ok payload)) = jsonify (ok_body "results" out)
    /\ Forall2 extends_entry results out.
Proof.
  destruct (validate_and_build_df payload) as [df|e] eqn:Hdf.
  - rewrite (predict_runs _ Hdf), (predict_recommend_runs _ Hdf).
    destruct (predict_of model df) as [preds|e]; [|discriminate].
    pose proof (runs_side_by_side (probs_of df) preds) as H.
    destruct (for_enumerate (predict_entry (probs_of df)) 0 preds) as [rs|x],
             (for_enumerate (predict_recommend_entry (probs_of df)) 0 preds)
               as [out|x'];
      try contradiction; cbn [fst]; [|discriminate].
    intros E. injection E as <-. exists out. split; [reflexivity | exact H].
  - rewrite (proj1 (coercion_raises _ Hdf)). discriminate.
Qed.

Lemma for_enumerate_out_of_range {A} (rows : list (list float))
  (entry : A -> Dict.t json) :
  forall l i,
    i <= List.length rows ->
    List.length rows < i + List.length l ->
    for_enumerate
      (fun idx a => with_probabilities (Some rows) idx (entry a)) i l
    = Raise (IndexError "list index out of range").
Proof.
  induction l as [|a l IH]; intros i Hi0 Hlen.
  - simpl in Hlen. lia.
  - cbn [for_enumerate]. cbn [List.length] in Hlen.
    unfold with_probabilities at 1. unfold probabilities.
    destruct (nth_error rows i) as [row|] eqn:Hrow; [|reflexivity].
    assert (Hi : i < List.length rows) by (apply nth_error_Some; congruence).
    rewrite IH by lia.
    destruct (classes_ model) as [[|c cs]|]; reflexivity.
Qed.

(** X4: When [predict_proba] gives fewer rows than [predict] gives
    predictions, /predict and /predict_recommend answer 400 with the
    message of the [IndexError], after both calls on the pipeline. *)
Theorem short_probabilities_rejected (payload : json) (df : DataFrame)
  (preds : list string)
  (predict_proba : DataFrame -> except (list (list float)))
  (rows : list (list float)) :
  validate_and_build_df payload = Ok df ->
  predict_of model df = Ok preds ->
  predict_proba_of model = Some predict_proba ->
  predict_proba df = Ok rows ->
  List.length rows < List.length preds ->
  predict (Ok payload)
  = ({| body := JObject [("status", JString "error");
                         ("error", JString "list index out of range");
                         ("trace",
                          JString (format_exc
                                     (through_frame "predict" 116
                                        (IndexError "list index out of range"))))];
        status := 400 |},
     [CallPredict df; CallPredictProba df])
  /\ predict_recommend (Ok payload)
     = (error_response
          (through_frame "predict_recommend" 170
             (IndexError "list index out of range")),
        [CallPredict df; CallPredictProba df]).
Proof.
  intros Hdf Hp Hattr Hpp Hlen.
  rewrite (predict_runs _ Hdf), (predict_recommend_runs _ Hdf), Hp.
  unfold probs_of, proba_calls. rewrite Hattr, Hpp.
  unfold predict_entry, predict_recommend_entry.
  rewrite (@for_enumerate_out_of_range _ rows
             (fun p => [("Complication", JString (str p))]) preds 0)
    by (simpl; lia).
  rewrite (@for_enumerate_out_of_range _ rows
             (fun p => [("Complication", JString (str p));
                        ("Recommendation",
                         json_of_recommendation
                           (recommend_from_complication (str p)))]) preds 0)
    by (simpl; lia).
  split; reflexivity.
Qed.

(** ** Probabilities *)

Lemma set_fresh {V} (d : Dict.t V) (k : string) (v : V) :
  ~ In k (Dict.keys d) -> Dict.set d k v = d ++ [(k, v)].
Proof.
  induction d as [|[a w] d IH]; intros Hk; simpl; [reflexivity|].
  destruct (String.eqb_spec a k) as [->|N].
  - exfalso. apply Hk. now left.
  - rewrite IH; [reflexivity|]. intros Hin. apply Hk. now right.
Qed.

Lemma fold_set_nodup {V} (pairs acc : Dict.t V) :
  NoDup (Dict.keys acc ++ Dict.keys pairs) ->
  fold_left (fun d kv => Dict.set d (fst kv) (snd kv)) pairs acc
  = acc ++ pairs.
Proof.
  revert acc. induction pairs as [|[k v] pairs IH]; intros acc Hnd; simpl.
  - now rewrite app_nil_r.
  - unfold Dict.keys in *. simpl in Hnd.
    rewrite set_fresh.
    + rewrite IH.
      * now rewrite <- app_assoc.
      * rewrite map_app. simpl. rewrite <- app_assoc. exact Hnd.
    + apply NoDup_remove_2 in Hnd. intros Hin. apply Hnd.
      apply in_or_app. now left.
Qed.

(** [dict(pairs)] keeps the pairs as they are when no key comes twice. *)
Lemma of_pairs_nodup {V} (pairs : Dict.t V) :
  NoDup (Dict.keys pairs) -> Dict.of_pairs pairs = pairs.
Proof.
  intros H. unfold Dict.of_pairs. now rewrite fold_set_nodup.
Qed.

Lemma keys_combine {V} (ks : list string) (vs : list V) :
  Dict.keys (combine ks vs) = firstn (List.length vs) ks.
Proof.
  unfold Dict.keys. revert vs.
  induction ks as [|k ks IH]; intros [|v vs]; simpl; try reflexivity.
  now rewrite IH.
Qed.

Lemma NoDup_firstn {A} (n : nat) (l : list A) : NoDup l -> NoDup (firstn n l).
Proof.
  revert n. induction l as [|a l IH]; intros [|n] H; simpl; try constructor.
  - inversion H as [|? ? Hin Hl]; subst. intros Hf. apply Hin.
    rewrite <- (firstn_skipn n l). apply in_or_app. now left.
  - inversion H; subst. now apply IH.
Qed.

Lemma find_combine {V} (ks : list string) (vs : list V) (i : nat)
  (k : string) (v : V) :
  NoDup ks -> nth_error ks i = Some k -> nth_error vs i = Some v ->
  Dict.find (combine ks vs) k = Some v.
Proof.
  revert vs i. induction ks as [|a ks IH]; intros vs i Hnd Hk Hv.
  - destruct i; discriminate.
  - destruct vs as [|w vs]; [destruct i; discriminate|].
    inversion Hnd as [|? ? Hin Hnd']; subst.
    destruct i as [|i]; simpl in *.
    + injection Hk as ->. injection Hv as ->. now rewrite String.eqb_refl.
    + destruct (String.eqb_spec a k) as [->|N].
      * exfalso. apply Hin. eapply nth_error_In; exact Hk.
      * eapply IH; eauto.
Qed.

(** X5: The [Probabilities] member built from the row of a prediction: with
    distinct class labels it is the object that gives each class, in
    order, the probability at the same position of the row; without
    class labels it is the bare list of the row. *)
Theorem probabilities_by_class (rows : list (list float)) (idx : nat)
  (row : list float) :
  nth_error rows idx = Some row ->
  (forall c cs,
      classes_ model = Some (c :: cs) -> NoDup (c :: cs) ->
      probabilities rows idx = Ok (JObject (combine (c :: cs) (map JFloat row)))
      /\ forall i k x,
           nth_error (c :: cs) i = Some k -> nth_error row i = Some x ->
           Dict.find (combine (c :: cs) (map JFloat row)) k = Some (JFloat x))
  /\ (classes_ model = None \/ classes_ model = Some [] ->
      probabilities rows idx = Ok (JArray (map JFloat row))).
Proof.
  intros Hrow. unfold probabilities. rewrite Hrow. split.
  - intros c cs Hc Hnd. rewrite Hc. split.
    + rewrite of_pairs_nodup; [reflexivity|].
      rewrite keys_combine. now apply NoDup_firstn.
    + intros i k x Hk Hx. apply find_combine with (i := i); auto.
      now rewrite nth_error_map, Hx.
  - intros [-> | ->]; reflexivity.
Qed.

(** ** One object, or the array that holds it *)

(** X6: An object body and the array holding that one object coerce to the
    same frame, and /predict and /predict_recommend answer both alike.
    /recommend answers both alike when the object is not empty and has no
    [Complication] member; an object with a [Complication] member inside
    an array is not resolved directly but predicted from, and the array
    holding the empty object is predicted from where the empty object
    itself is rejected. *)
Theorem object_as_singleton_array (d : Dict.t json) :
  validate_and_build_df (JArray [JObject d]) = validate_and_build_df (JObject d)
  /\ predict (Ok (JArray [JObject d])) = predict (Ok (JObject d))
  /\ predict_recommend (Ok (JArray [JObject d]))
     = predict_recommend (Ok (JObject d))
  /\ (d <> [] -> Dict.find d "Complication" = None ->
      recommend (Ok (JArray [JObject d])) = recommend (Ok (JObject d)))
  /\ (forall comp,
         Dict.find d "Complication" = Some comp ->
         snd (recommend (Ok (JObject d))) = []
         /\ exists df,
              validate_and_build_df (JObject d) = Ok df
              /\ snd (recommend (Ok (JArray [JObject d]))) = [CallPredict df])
  /\ (d = [] ->
      fst (recommend (Ok (JObject d)))
      = error_response
          (through_frame "recommend" 132 (ValueError "Empty request body"))
      /\ snd (recommend (Ok (JArray [JObject d]))) = [CallPredict all_null_row]).
Proof.
  destruct (validate_object d) as [df Hdf].
  assert (Hdf' : validate_and_build_df (JArray [JObject d]) = Ok df).
  { rewrite <- Hdf. unfold validate_and_build_df. cbn [records_of].
    reflexivity. }
  assert (Hrec : recommend (Ok (JArray [JObject d]))
                 = (match predict_of model df with
                    | Ok preds =>
                        jsonify (ok_body "recommendations"
                                   (map recommend_entry preds))
                    | Raise e =>
                        error_response (through_frame "recommend" 140 e)
                    end, [CallPredict df])).
  { apply recommend_predicted; [reflexivity | reflexivity | exact Hdf']. }
  split; [now rewrite Hdf, Hdf'|].
  split; [now rewrite (predict_runs _ Hdf), (predict_runs _ Hdf')|].
  split; [now rewrite (predict_recommend_runs _ Hdf),
                      (predict_recommend_runs _ Hdf')|].
  split; [|split].
  - intros Hne Hc. rewrite Hrec. symmetry.
    apply recommend_predicted; [now destruct d | exact Hc | exact Hdf].
  - intros comp Hc. split; [now rewrite (recommend_direct _ Hc)|].
    exists df. split; [exact Hdf | now rewrite Hrec].
  - intros ->. split; [now rewrite recommend_empty|].
    rewrite Hrec. cbn [snd].
    assert (E : Ok df = Ok all_null_row) by (rewrite <- Hdf; vm_compute; reflexivity).
    now injection E as ->.
Qed.

(** ** What coercion reads of a record *)

Lemma coerced_column_agree (features : list string)
  (records records' : list json) (col : string) :
  In col features ->
  Forall2 (agree_on features) records records' ->
  coerced_column (map members_of records) col
  = coerced_column (map members_of records') col.
Proof.
  intros Hcol HF. unfold coerced_column, supplied_column.
  assert (Hcell : map (fun r => cell_of r col) (map members_of records)
                  = map (fun r => cell_of r col) (map members_of records')).
  { clear - HF Hcol.
    induction HF as [|r r' rs rs' (_ & _ & Hag) _ IH]; simpl; [reflexivity|].
    unfold cell_of at 1 3. now rewrite (Hag col Hcol), IH. }
  assert (Hmem : existsb (fun r => Dict.mem r col) (map members_of records)
                 = existsb (fun r => Dict.mem r col) (map members_of records')).
  { clear - HF Hcol.
    induction HF as [|r r' rs rs' (_ & _ & Hag) _ IH]; simpl; [reflexivity|].
    unfold Dict.mem at 1 3. now rewrite (Hag col Hcol), IH. }
  rewrite Hcell, Hmem, !length_map, (Forall2_length HF). reflexivity.
Qed.

Lemma agree_on_objects (features : list string) (records records' : list json) :
  Forall2 (agree_on features) records records' ->
  forallb is_object records = true /\ forallb is_object records' = true.
Proof.
  induction 1 as [|r r' rs rs' (Ho & Ho' & _) _ [IH IH']]; simpl;
    [split; reflexivity|].
  now rewrite Ho, Ho', IH, IH'.
Qed.

(** X7: The coerced frame depends on the records only through the values
    they give the expected features: two arrays of objects that agree,
    record by record, on every expected feature coerce to the same frame,
    and so do two such objects.  Any other member of a record is
    ignored. *)
Theorem coercion_reads_expected_features_only (features : list string) :
  EXPECTED_FEATURES = Some features ->
  (forall records records',
      Forall2 (agree_on features) records records' ->
      validate_and_build_df (JArray records')
      = validate_and_build_df (JArray records))
  /\ (forall d d',
        agree_on features (JObject d) (JObject d') ->
        validate_and_build_df (JObject d') = validate_and_build_df (JObject d))
  /\ (forall d k v,
        ~ In k features ->
        validate_and_build_df (JObject ((k, v) :: d))
        = validate_and_build_df (JObject d)).
Proof.
  intros Hexp.
  assert (Hlist : forall payload payload' records records',
             records_of payload = Ok records ->
             records_of payload' = Ok records' ->
             Forall2 (agree_on features) records records' ->
             validate_and_build_df payload' = validate_and_build_df payload).
  { intros payload payload' records records' Hr Hr' HF.
    destruct (agree_on_objects HF) as [Ho Ho'].
    rewrite (@coerce_dicts records _ Ho Hexp payload Hr),
            (@coerce_dicts records' _ Ho' Hexp payload' Hr'),
            (Forall2_length HF).
    f_equal. f_equal. apply map_ext_in. intros c Hc. f_equal.
    symmetry. now apply coerced_column_agree with (features := features). }
  split; [|split].
  - intros records records' HF.
    now apply Hlist with (records := records) (records' := records').
  - intros d d' Hag.
    apply Hlist with (records := [JObject d]) (records' := [JObject d']);
      [reflexivity | reflexivity | constructor; [exact Hag | constructor]].
  - intros d k v Hk.
    apply Hlist with (records := [JObject d]) (records' := [JObject ((k, v) :: d)]);
      [reflexivity | reflexivity|].
    constructor; [|constructor].
    split; [reflexivity|]. split; [reflexivity|].
    intros c Hc. cbn [members_of Dict.find].
    destruct (String.eqb_spec k c) as [->|N]; [contradiction | reflexivity].
Qed.

(** ** /recommend beside the other handlers *)

(** X8: A [Complication] member that is [null], [true] or [false] is
    resolved as the label "None", "True" or "False", and echoed as it was
    sent. *)
Theorem recommend_complication_not_a_string (d : Dict.t json) (comp : json)
  (label : string) :
  Dict.find d "Complication" = Some comp ->
  (comp = JNull /\ label = "None")
  \/ (comp = JBool true /\ label = "True")
  \/ (comp = JBool false /\ label = "False") ->
  recommend (Ok (JObject d))
  = (jsonify (JObject [("status", JString "ok");
                       ("complication", comp);
                       ("recommendation",
                        json_of_recommendation
                          (recommend_from_complication label))]),
     []).
Proof.
  intros Hc H. rewrite (recommend_direct _ Hc).
  destruct H as [[-> ->]|[[-> ->]|[-> ->]]]; reflexivity.
Qed.

Lemma for_enumerate_rel_map {A B C} (R : C -> B -> Prop)
  (f : nat -> A -> except B) (g : A -> C) :
  (forall i a b, f i a = Ok b -> R (g a) b) ->
  forall l i bs, for_enumerate f i l = Ok bs -> Forall2 R (map g l) bs.
Proof.
  intros Hf. induction l as [|a l IH]; intros i bs; simpl.
  - intros H. injection H as <-. constructor.
  - destruct (f i a) as [b|e] eqn:Hb; [|discriminate].
    destruct (for_enumerate f (S i) l) as [bs'|e] eqn:Hl; [|discriminate].
    intros H. injection H as <-. constructor; eauto.
Qed.

(** X9: When /predict_recommend answers a feature body with a list of
    results, /recommend answers the same body with a list of the same
    length whose entries carry the same labels and recommendations; the
    two lists are equal when [predict_proba] is unavailable. *)
Theorem recommend_agrees_with_predict_recommend (payload : json)
  (out : list json) :
  truthy payload = true ->
  Dict.find (members_of payload) "Complication" = None ->
  fst (predict_recommend (Ok payload)) = jsonify (ok_body "results" out) ->
  exists recs,
    fst (recommend (Ok payload)) = jsonify (ok_body "recommendations" recs)
    /\ Forall2 same_label_and_recommendation recs out
    /\ (forall df,
           validate_and_build_df payload = Ok df ->
           probs_of df = None -> out = recs).
Proof.
  intros Ht Hc.
  destruct (validate_and_build_df payload) as [df|e] eqn:Hdf.
  2:{ rewrite (proj2 (coercion_raises _ Hdf)). discriminate. }
  rewrite (predict_recommend_runs _ Hdf), (recommend_predicted _ Ht Hc Hdf).
  destruct (predict_of model df) as [preds|e]; [|discriminate].
  destruct (for_enumerate (predict_recommend_entry (probs_of df)) 0 preds)
    as [out'|x] eqn:Hout; cbn [fst]; [|discriminate].
  intros E. injection E as <-.
  exists (map recommend_entry preds). split; [reflexivity|]. split.
  - refine (@for_enumerate_rel_map _ _ _ same_label_and_recommendation
              (predict_recommend_entry (probs_of df)) recommend_entry
              _ preds 0 out' Hout).
    intros i p b. unfold predict_recommend_entry, with_probabilities.
    destruct (probs_of df) as [rows|].
    + destruct (probabilities rows i); [|discriminate].
      intros H. injection H as <-. split; reflexivity.
    + intros H. injection H as <-. split; reflexivity.
  - intros df' Hdf' Hnone. injection Hdf' as <-. rewrite Hnone in Hout.
    rewrite (@for_enumerate_pure _ _ (predict_recommend_entry None)
               recommend_entry) in Hout by reflexivity.
    now injection Hout as <-.
Qed.

(** ** The two missing markers *)

Lemma find_map_some {V} (f : string -> V) (ks : list string) (k : string)
  (v : V) :
  Dict.find (map (fun c => (c, f c)) ks) k = Some v -> v = f k.
Proof.
  rewrite find_map_keys.
  destruct (existsb (String.eqb k) ks); congruence.
Qed.

Lemma coerced_frame_column (payload : json) (records : list json)
  (df : DataFrame) (col : string) (column : list cell) :
  feature_payload payload = true ->
  records_of payload = Ok records ->
  validate_and_build_df payload = Ok df ->
  Dict.find (data df) col = Some column ->
  column = coerced_column (map members_of records) col.
Proof.
  intros Hfp Hrec Hdf Hcol.
  destruct (feature_payload_records payload Hfp) as (records0 & Hrec0 & Hobj).
  rewrite Hrec in Hrec0. injection Hrec0 as <-.
  rewrite (@coerce_dicts records _ Hobj eq_refl payload Hrec) in Hdf.
  injection Hdf as <-.
  exact (@find_map_some _
           (fun c => coerced_column (map members_of records) c)
           (match EXPECTED_FEATURES with Some f => f | None => [] end)
           col column Hcol).
Qed.

(** X17: A feature that no record of the body has is a column of [None]; a
    feature that some record has is NaN in the rows of the records that
    lack it. *)
Theorem missing_feature_markers (payload : json) (records : list json)
  (df : DataFrame) (col : string) (column : list cell) :
  feature_payload payload = true ->
  records_of payload = Ok records ->
  validate_and_build_df payload = Ok df ->
  Dict.find (data df) col = Some column ->
  ((forall r, In r records -> Dict.find (members_of r) col = None) ->
   column = repeat (Val JNull) (List.length records))
  /\ ((exists r, In r records /\ Dict.find (members_of r) col <> None) ->
      forall i r,
        nth_error records i = Some r ->
        Dict.find (members_of r) col = None ->
        nth_error column i = Some NaN).
Proof.
  intros Hfp Hrec Hdf Hcol.
  rewrite (coerced_frame_column payload col Hfp Hrec Hdf Hcol).
  unfold coerced_column. rewrite length_map. split.
  - intros Hnone.
    replace (existsb (fun r => Dict.mem r col) (map members_of records))
      with false; [reflexivity|].
    symmetry. apply not_true_is_false. intros He.
    apply existsb_exists in He. destruct He as (m & Hin & Hm).
    apply in_map_iff in Hin. destruct Hin as (r & <- & Hin).
    unfold Dict.mem in Hm. now rewrite (Hnone r Hin) in Hm.
  - intros (r0 & Hin0 & Hsome) i r Hi Hnone.
    replace (existsb (fun r => Dict.mem r col) (map members_of records))
      with true.
    + unfold infer_objects, supplied_column.
      rewrite !nth_error_map, Hi. cbn [option_map]. unfold cell_of.
      now rewrite Hnone.
    + symmetry. apply existsb_exists. exists (members_of r0).
      split; [now apply in_map|].
      unfold Dict.mem. now destruct (Dict.find (members_of r0) col).
Qed.

End Backend.

(** * Case and the resolver *)

Lemma ascii_lower_idem (c : ascii) :
  PyStr.ascii_lower (PyStr.ascii_lower c) = PyStr.ascii_lower c.
Proof. destruct c as [[] [] [] [] [] [] [] []]; reflexivity. Qed.

Lemma ascii_lower_upper (c : ascii) :
  PyStr.ascii_lower (PyStr.ascii_upper c) = PyStr.ascii_lower c.
Proof. destruct c as [[] [] [] [] [] [] [] []]; reflexivity. Qed.

Lemma ascii_not_dotless_i (c d : ascii) :
  PyStr.is_ascii_char c = true -> PyStr.is_dotless_i c d = false.
Proof.
  destruct c as [[] [] [] [] [] [] [] []]; intros H;
    first [discriminate H | reflexivity].
Qed.

Lemma lower_idem (s : string) : PyStr.lower (PyStr.lower s) = PyStr.lower s.
Proof.
  induction s as [|c s IH]; simpl; [reflexivity|].
  now rewrite ascii_lower_idem, IH.
Qed.

Lemma lower_upper_ascii (s : string) :
  PyStr.isascii s = true -> PyStr.lower (PyStr.upper s) = PyStr.lower s.
Proof.
  induction s as [|c s IH]; [reflexivity|].
  intros H. simpl in H. apply andb_true_iff in H. destruct H as [Hc Hs].
  specialize (IH Hs). destruct s as [|d s].
  - simpl. now rewrite ascii_lower_upper.
  - change (PyStr.upper (String c (String d s)))
      with (if PyStr.is_dotless_i c d then String "I"%char (PyStr.upper s)
            else String (PyStr.ascii_upper c) (PyStr.upper (String d s))).
    rewrite (ascii_not_dotless_i c d Hc).
    change (PyStr.lower (String (PyStr.ascii_upper c) (PyStr.upper (String d s))))
      with (String (PyStr.ascii_lower (PyStr.ascii_upper c))
              (PyStr.lower (PyStr.upper (String d s)))).
    now rewrite ascii_lower_upper, IH.
Qed.

(** The resolver sees its argument through [lower] alone. *)
Lemma resolve_by_lower (lower : string -> string) (med_map_df : list MedRow)
  (s1 s2 : string) :
  lower s1 = lower s2 ->
  recommend_from_complication lower med_map_df s1
  = recommend_from_complication lower med_map_df s2.
Proof.
  intros H. unfold recommend_from_complication, str, Str_string.
  now rewrite H.
Qed.

(** C4 (amended): on ASCII labels resolution is case-insensitive: a
    label, its lowercase form and its uppercase form resolve to the same
    recommendation, whatever the table; so do "INFECTION", "infection" and
    "Infection". *)
Theorem C4_case_insensitive_ascii (med_map_df : list MedRow) (s : string) :
  PyStr.isascii s = true ->
  recommend_from_complication PyStr.lower med_map_df (PyStr.lower s)
  = recommend_from_complication PyStr.lower med_map_df s
  /\ recommend_from_complication PyStr.lower med_map_df (PyStr.upper s)
     = recommend_from_complication PyStr.lower med_map_df s
  /\ recommend_from_complication PyStr.lower med_map_df "INFECTION"
     = recommend_from_complication PyStr.lower med_map_df "infection"
  /\ recommend_from_complication PyStr.lower med_map_df "Infection"
     = recommend_from_complication PyStr.lower med_map_df "infection".
Proof.
  intros H. split; [|split; [|split]]; apply resolve_by_lower.
  - apply lower_idem.
  - now apply lower_upper_ascii.
  - reflexivity.
  - reflexivity.
Qed.

Lemma C4_witness :
  PyStr.isascii "Organ Failure" = true
  /\ recommend_from_complication PyStr.lower builtin_med_map "ORGAN FAILURE"
     = recommend_from_complication PyStr.lower builtin_med_map "Organ Failure".
Proof.
  split; [reflexivity|].
  exact (proj1 (proj2 (C4_case_insensitive_ascii builtin_med_map
                         "Organ Failure" eq_refl))).
Defined.

(** The label U+0131 "nfect" resolves to the generic default, and its
    uppercase form, "INFECT", to the antibiotics rule. *)
Lemma C4_counterexample :
  ~ (forall (med_map_df : list MedRow) (s : string),
        recommend_from_complication PyStr.lower med_map_df (PyStr.lower s)
        = recommend_from_complication PyStr.lower med_map_df s
        /\ recommend_from_complication PyStr.lower med_map_df (PyStr.upper s)
           = recommend_from_complication PyStr.lower med_map_df s).
Proof.
  intros H. destruct (H builtin_med_map dotless_infect) as [_ Hu].
  vm_compute in Hu. discriminate Hu.
Qed.

Example upper_dotless_infect : PyStr.upper dotless_infect = "INFECT".
Proof. reflexivity. Qed.

Example resolve_dotless_infect :
  recommend_from_complication PyStr.lower builtin_med_map dotless_infect
  = rule_default
  /\ recommend_from_complication PyStr.lower builtin_med_map
       (PyStr.upper dotless_infect)
     = rule_infect.
Proof. split; reflexivity. Qed.

(** * The backend run on the sample runtime *)

#[local] Abbreviation resolve :=
  (recommend_from_complication PyStr.lower builtin_med_map).
#[local] Abbreviation coerce :=
  (validate_and_build_df sample_keyerror_str sample_stored_value
     sample_keeps_None sample_irregular).
#[local] Abbreviation run_predict m :=
  (predict sample_format_exc sample_keyerror_str sample_stored_value
     sample_keeps_None sample_irregular m).
#[local] Abbreviation run_recommend m :=
  (recommend PyStr.lower sample_repr sample_format_exc sample_keyerror_str
     sample_stored_value sample_keeps_None sample_irregular builtin_med_map m).
#[local] Abbreviation run_predict_recommend m :=
  (predict_recommend PyStr.lower sample_format_exc sample_keyerror_str
     sample_stored_value sample_keeps_None sample_irregular builtin_med_map m).

Example coerce_sample_patient : coerce sample_patient = Ok sample_patient_frame.
Proof. vm_compute. reflexivity. Qed.

Example coerce_sample_pair :
  coerce (JArray [sample_patient; JObject []]) = Ok sample_pair_frame.
Proof. vm_compute. reflexivity. Qed.

Example coerce_reordered :
  coerce sample_patient_reordered = coerce sample_patient.
Proof. vm_compute. reflexivity. Qed.

Lemma C1_witness :
  resolves PyStr.lower builtin_med_map "None"
    {| Recommended_Medication := "Pain Management"; Dosage := "100 mg/day";
       Duration := "1 days"; Source := "medication_map.csv" |}
  /\ resolves PyStr.lower builtin_med_map "XYZ-unknown" rule_default
  /\ (forall r, resolves PyStr.lower builtin_med_map "XYZ-unknown" r ->
        r = rule_default).
Proof.
  split; [|split].
  - exact (proj1 (C1_resolution_total_deterministic PyStr.lower
                    builtin_med_map "None")).
  - exact (proj1 (C1_resolution_total_deterministic PyStr.lower
                    builtin_med_map "XYZ-unknown")).
  - exact (proj1 (proj2 (C1_resolution_total_deterministic PyStr.lower
                           builtin_med_map "XYZ-unknown"))).
Defined.

Lemma C2_witness :
  matching_rows PyStr.lower builtin_med_map
    (PyStr.lower "Infected wound, bleeding") = []
  /\ resolve "Infected wound, bleeding" = rule_infect
  /\ resolve "Post-op BLEED" = rule_bleed
  /\ resolve "Renal failure" = rule_organ.
Proof.
  split; [reflexivity|]. split; [|split].
  - exact (proj1 (proj2 (C2_keyword_order PyStr.lower builtin_med_map
                           "Infected wound, bleeding" eq_refl))
             eq_refl eq_refl).
  - exact (proj1 (proj2 (proj2 (C2_keyword_order PyStr.lower builtin_med_map
                                  "Post-op BLEED" eq_refl)))
             eq_refl eq_refl).
  - exact (proj2 (proj2 (proj2 (C2_keyword_order PyStr.lower builtin_med_map
                                  "Renal failure" eq_refl)))
             eq_refl eq_refl eq_refl).
Defined.

Lemma C3_witness :
  matching_rows PyStr.lower builtin_med_map (PyStr.lower "XYZ-unknown") = []
  /\ resolve "XYZ-unknown"
     = {| Recommended_Medication := "Pain Management"; Dosage := "100 mg/day";
          Duration := "1 days"; Source := "rule" |}
  /\ body (fst (run_recommend sample_model
                  (Ok (JObject [("Complication", JString "XYZ-unknown")]))))
     = JObject [("status", JString "ok");
                ("complication", JString "XYZ-unknown");
                ("recommendation",
                 JObject [("Recommended_Medication", JString "Pain Management");
                          ("Dosage", JString "100 mg/day");
                          ("Duration", JString "1 days");
                          ("Source", JString "rule")])].
Proof.
  split; [reflexivity|].
  pose proof (C3_generic_default PyStr.lower sample_repr sample_format_exc
                sample_keyerror_str sample_stored_value sample_keeps_None sample_irregular builtin_med_map
                sample_model "XYZ-unknown"
                eq_refl eq_refl eq_refl eq_refl eq_refl) as [H1 H2].
  split; [exact H1|]. rewrite H2. reflexivity.
Defined.

(** The table answer for "Infection" carries [Source]
    "medication_map.csv", not "table". *)
Lemma C9_counterexample :
  ~ (forall (lower : string -> string) (med_map_df : list MedRow) (s : string),
        matching_rows lower med_map_df (lower s) <> [] ->
        Source (recommend_from_complication lower med_map_df s) = "table").
Proof.
  intros H.
  assert (Hm : matching_rows PyStr.lower builtin_med_map
                 (PyStr.lower "Infection") <> []) by discriminate.
  specialize (H PyStr.lower builtin_med_map "Infection" Hm).
  vm_compute in H. discriminate H.
Qed.

Lemma C9_witness :
  Source (resolve "Infection") = "medication_map.csv"
  /\ Source (resolve "XYZ-unknown") = "rule".
Proof.
  split.
  - apply (proj1 (C9_source_tag PyStr.lower builtin_med_map "Infection")).
    vm_compute. discriminate.
  - apply (proj1 (proj2 (C9_source_tag PyStr.lower builtin_med_map "XYZ-unknown"))).
    reflexivity.
Defined.

Lemma C5_witness :
  run_recommend sample_model_failing
    (Ok (JObject [("Age", JInt 60); ("Complication", JString "Bleeding")]))
  = (jsonify
       (JObject [("status", JString "ok");
                 ("complication", JString "Bleeding");
                 ("recommendation",
                  JObject [("Recommended_Medication",
                            JString "Blood Transfusion + Hemostatic Agent");
                           ("Dosage", JString "2 units");
                           ("Duration", JString "1 days");
                           ("Source", JString "medication_map.csv")])]),
     [])
  /\ run_recommend sample_model (Ok (JArray [sample_patient; JObject []]))
     = (jsonify
          (ok_body "recommendations"
             [recommend_entry PyStr.lower builtin_med_map "Infection";
              recommend_entry PyStr.lower builtin_med_map "Infection"]),
        [CallPredict sample_pair_frame]).
Proof.
  pose proof (C5_recommend_dispatch PyStr.lower sample_repr sample_format_exc
                sample_keyerror_str sample_stored_value sample_keeps_None sample_irregular builtin_med_map)
    as H.
  split.
  - destruct (H sample_model_failing) as [Hd _].
    rewrite (Hd [("Age", JInt 60); ("Complication", JString "Bleeding")]
               (JString "Bleeding") eq_refl).
    vm_compute. reflexivity.
  - destruct (H sample_model) as (_ & Hp & _).
    rewrite (Hp (JArray [sample_patient; JObject []]) sample_pair_frame
               ["Infection"; "Infection"]
               eq_refl eq_refl coerce_sample_pair eq_refl).
    vm_compute. reflexivity.
Defined.

Lemma C6_witness :
  feature_payload (JArray [sample_patient; JObject []]) = true
  /\ exists df,
       coerce (JArray [sample_patient; JObject []]) = Ok df
       /\ List.length (columns df) = 15
       /\ index df = 2
       /\ Dict.find (data df) "Age" = Some [Val (JFloat 60%float); NaN]
       /\ Dict.find (data df) "BMI" = Some [Val JNull; Val JNull].
Proof.
  split; [reflexivity|].
  destruct (C6_coercion sample_keyerror_str sample_stored_value sample_keeps_None sample_irregular
              (JArray [sample_patient; JObject []]) eq_refl eq_refl)
    as (df & Hdf & Hcols & Hidx & _).
  exists df. split; [exact Hdf|].
  split; [now rewrite Hcols|]. split; [exact Hidx|].
  rewrite coerce_sample_pair in Hdf. injection Hdf as <-.
  split; vm_compute; reflexivity.
Defined.

Lemma C7_witness :
  forallb is_object [sample_patient; JObject []] = true
  /\ status (fst (run_predict sample_model_proba
                    (Ok (JArray [sample_patient; JObject []])))) = 200
  /\ exists results,
       body (fst (run_predict sample_model_proba
                    (Ok (JArray [sample_patient; JObject []]))))
       = JObject [("status", JString "ok"); ("predictions", JArray results)]
       /\ List.length results = 2
       /\ map entry_label results
          = [Some (JString "Bleeding"); Some (JString "Bleeding")].
Proof.
  split; [reflexivity|].
  destruct (C7_one_entry_per_row PyStr.lower sample_format_exc
              sample_keyerror_str sample_stored_value sample_keeps_None sample_irregular builtin_med_map
              sample_model_proba [sample_patient; JObject []]
              (df := sample_pair_frame) (preds := ["Bleeding"; "Bleeding"])
              eq_refl coerce_sample_pair eq_refl eq_refl)
    as (_ & Hp & _ & Hok).
  assert (Hs : status (fst (run_predict sample_model_proba
                              (Ok (JArray [sample_patient; JObject []])))) = 200).
  { apply Hok. vm_compute. lia. }
  split; [exact Hs|]. exact (Hp Hs).
Defined.

(** A pipeline whose [predict_proba] raises is answered with status 200. *)
Lemma C8_counterexample :
  ~ (forall (model : Model) (payload : json) (df : DataFrame)
            (predict_proba : DataFrame -> except (list (list float)))
            (e : exn),
        coerce payload = Ok df ->
        predict_proba_of model = Some predict_proba ->
        predict_proba df = Raise e ->
        status (fst (run_predict model (Ok payload))) = 400).
Proof.
  intros H.
  specialize (H sample_model_proba_raising sample_patient sample_patient_frame
                _ _ coerce_sample_patient eq_refl eq_refl).
  vm_compute in H. discriminate H.
Qed.

Lemma C8_witness :
  run_predict sample_model (Ok (JInt 42))
  = ({| body :=
          JObject
            [("status", JString "error");
             ("error", JString "Payload must be a JSON object or array of objects.");
             ("trace",
              JString
                (sample_format_exc
                   (through_frame "predict" 103
                      (through_frame "validate_and_build_df" 79
                         (ValueError
                            "Payload must be a JSON object or array of objects.")))))];
        status := 400 |},
     [])
  /\ status (fst (run_predict sample_model_failing (Ok sample_patient))) = 400
  /\ status (fst (run_recommend sample_model_failing (Ok sample_patient))) = 400
  /\ fst (run_predict sample_model_proba_raising (Ok sample_patient))
     = jsonify (ok_body "predictions"
                  [JObject [("Complication", JString "Infection")]])
  /\ fst (run_predict sample_model (Ok sample_patient))
     = jsonify (ok_body "predictions"
                  [JObject [("Complication", JString "Infection")]]).
Proof.
  pose proof (C8_exceptions_answered PyStr.lower sample_repr sample_format_exc
                sample_keyerror_str sample_stored_value sample_keeps_None sample_irregular builtin_med_map) as H.
  split; [|split; [|split; [|split]]].
  - destruct (H sample_model) as (H1 & _).
    exact (proj2 (H1 (JInt 42) eq_refl eq_refl)).
  - destruct (H sample_model_failing) as (_ & _ & _ & H4 & _).
    destruct (H4 sample_patient sample_patient_frame _
                coerce_sample_patient eq_refl) as (Hp & _).
    rewrite Hp. reflexivity.
  - destruct (H sample_model_failing) as (_ & _ & _ & H4 & _).
    destruct (H4 sample_patient sample_patient_frame _
                coerce_sample_patient eq_refl) as (_ & _ & Hr).
    rewrite (Hr eq_refl eq_refl). reflexivity.
  - destruct (H sample_model_proba_raising) as (_ & _ & _ & _ & _ & H6).
    destruct (H6 sample_patient sample_patient_frame ["Infection"]
                coerce_sample_patient eq_refl
                (or_intror
                   (ex_intro _ _ (ex_intro _ _ (conj eq_refl eq_refl)))))
      as (Hp & _).
    rewrite Hp. reflexivity.
  - destruct (H sample_model) as (_ & _ & _ & _ & _ & H6).
    destruct (H6 sample_patient sample_patient_frame ["Infection"]
                coerce_sample_patient eq_refl (or_introl eq_refl))
      as (Hp & _).
    rewrite Hp. reflexivity.
Defined.

Lemma C10_witness :
  truthy (JFloat 0%float) = false
  /\ run_recommend sample_model (Ok (JFloat 0%float))
     = ({| body :=
             JObject
               [("status", JString "error");
                ("error", JString "Empty request body");
                ("trace",
                 JString
                   (sample_format_exc
                      (through_frame "recommend" 132
                         (ValueError "Empty request body"))))];
           status := 400 |},
        [])
  /\ coerce (JObject []) = Ok all_null_row.
Proof.
  split; [reflexivity|].
  destruct (C10_empty_body PyStr.lower sample_repr sample_format_exc
              sample_keyerror_str sample_stored_value sample_keeps_None sample_irregular builtin_med_map sample_model)
    as (Hr & _ & Hdf & _).
  split; [exact (Hr (JFloat 0%float) eq_refl) | exact Hdf].
Defined.

(** * The table and the rules *)

Lemma matching_rows_app (lower : string -> string) (t1 t2 : list MedRow)
  (key : string) :
  matching_rows lower (t1 ++ t2) key
  = matching_rows lower t1 key ++ matching_rows lower t2 key.
Proof. unfold matching_rows. apply filter_app. Qed.

Lemma matching_rows_none (lower : string -> string) (rows : list MedRow)
  (key : string) :
  Forall (fun row => lower (Complication row) <> key) rows ->
  matching_rows lower rows key = [].
Proof.
  intros H. unfold matching_rows. apply filter_none.
  intros row Hin. apply String.eqb_neq.
  rewrite Forall_forall in H. now apply H.
Qed.

(** X10: Rows whose label differs from the input, case aside, do not change
    its resolution wherever they stand in the table; and once a row of
    the table carries the label, no row added after the table does. *)
Theorem table_rows_that_matter (lower : string -> string) (s : string) :
  (forall before extra after,
      Forall (fun row => lower (Complication row) <> lower s) extra ->
      recommend_from_complication lower (before ++ extra ++ after) s
      = recommend_from_complication lower (before ++ after) s)
  /\ (forall table extra,
        matching_rows lower table (lower s) <> [] ->
        recommend_from_complication lower (table ++ extra) s
        = recommend_from_complication lower table s).
Proof.
  unfold recommend_from_complication, str, Str_string. split.
  - intros before extra after H.
    rewrite !matching_rows_app, (@matching_rows_none lower extra _ H).
    reflexivity.
  - intros table extra H. rewrite matching_rows_app.
    destruct (matching_rows lower table (lower s)); [congruence | reflexivity].
Qed.

(** X11: With the built-in medication map the table and the rules never
    disagree: for every label the medication, dosage and duration
    returned are those of the rule fall-back on the lowercased label, and
    the [Source] is "medication_map.csv" exactly for the four labels of
    the map, case aside. *)
Theorem builtin_map_agrees_with_rules (lower : string -> string) (s : string) :
  lower "Infection" = "infection" ->
  lower "Bleeding" = "bleeding" ->
  lower "Organ Failure" = "organ failure" ->
  lower "None" = "none" ->
  Recommended_Medication (recommend_from_complication lower builtin_med_map s)
  = Recommended_Medication (fallback (lower s))
  /\ Dosage (recommend_from_complication lower builtin_med_map s)
     = Dosage (fallback (lower s))
  /\ Duration (recommend_from_complication lower builtin_med_map s)
     = Duration (fallback (lower s))
  /\ (Source (recommend_from_complication lower builtin_med_map s)
      = "medication_map.csv"
      <-> In (lower s) ["infection"; "bleeding"; "organ failure"; "none"]).
Proof.
  intros Hi Hb Ho Hn.
  unfold recommend_from_complication, str, Str_string.
  generalize (lower s) as key. intros key.
  unfold matching_rows, builtin_med_map. cbn [filter Complication].
  rewrite Hi, Hb, Ho, Hn.
  destruct (String.eqb_spec "infection" key) as [<-|N1].
  { repeat split; try reflexivity. intros _. now left. }
  destruct (String.eqb_spec "bleeding" key) as [<-|N2].
  { repeat split; try reflexivity. intros _. right. now left. }
  destruct (String.eqb_spec "organ failure" key) as [<-|N3].
  { repeat split; try reflexivity. intros _. right. right. now left. }
  destruct (String.eqb_spec "none" key) as [<-|N4].
  { repeat split; try reflexivity. intros _. right. right. right. now left. }
  repeat split; try reflexivity.
  - unfold fallback.
    destruct (PyStr.str_in "infect" key); [discriminate|].
    destruct (PyStr.str_in "bleed" key); [discriminate|].
    destruct (PyStr.str_in "organ" key || PyStr.str_in "failure" key);
      discriminate.
  - intros [H|[H|[H|[H|[]]]]]; congruence.
Qed.

Lemma lower_app (a b : string) :
  PyStr.lower (a ++ b) = (PyStr.lower a ++ PyStr.lower b)%string.
Proof.
  induction a as [|c a IH]; simpl; [reflexivity|]. now rewrite IH.
Qed.

(** X12: An ASCII label that no row of the table carries and that contains
    "infect" in any letter case, anywhere, is answered with the
    antibiotics rule, whatever else it contains.  The labels of the
    table are any strings: [lower] is Python's [str.lower], of which
    only its values on ASCII strings are used, and whether a row carries
    the label is decided with it. *)
Theorem infect_anywhere_any_case (lower : string -> string)
  (med_map_df : list MedRow) (pre kw post : string) :
  (forall s, PyStr.isascii s = true -> lower s = PyStr.lower s) ->
  PyStr.isascii (pre ++ kw ++ post) = true ->
  matching_rows lower med_map_df (lower (pre ++ kw ++ post)%string) = [] ->
  PyStr.lower kw = "infect" ->
  recommend_from_complication lower med_map_df (pre ++ kw ++ post)%string
  = rule_infect.
Proof.
  intros Hlower Hascii Hm Hk.
  unfold recommend_from_complication, str, Str_string. rewrite Hm.
  rewrite (Hlower _ Hascii).
  unfold fallback.
  replace (PyStr.str_in "infect" (PyStr.lower (pre ++ kw ++ post))) with true;
    [reflexivity|].
  symmetry. apply str_in_spec.
  exists (PyStr.lower pre), (PyStr.lower post).
  now rewrite !lower_app, Hk.
Qed.

(** * The training columns *)

Lemma existsb_eqb_In (c : string) (l : list string) :
  existsb (String.eqb c) l = true <-> In c l.
Proof.
  rewrite existsb_exists. split.
  - intros (x & Hin & E). apply String.eqb_eq in E. now subst.
  - intros H. exists c. split; [exact H | apply String.eqb_refl].
Qed.

Lemma missing_labels_nil (columns labels : list string) :
  filter (fun l => negb (existsb (String.eqb l) columns)) labels = []
  <-> forall c, In c labels -> In c columns.
Proof.
  split.
  - intros H c Hc. apply existsb_eqb_In.
    destruct (existsb (String.eqb c) columns) eqn:E; [reflexivity|].
    assert (Hin : In c (filter (fun l => negb (existsb (String.eqb l) columns))
                          labels)).
    { apply filter_In. split; [exact Hc | now rewrite E]. }
    rewrite H in Hin. destruct Hin.
  - intros H. apply filter_none. intros c Hc.
    now rewrite (proj2 (existsb_eqb_In c columns) (H c Hc)).
Qed.

Lemma X_columns_ok (drop_keyerror_str dropna_keyerror_str : list string -> string)
  (csv_columns X : list string) :
  TrainModel.X_columns drop_keyerror_str dropna_keyerror_str csv_columns = Ok X ->
  (forall c, In c TrainModel.dropped -> In c csv_columns)
  /\ X = filter (fun c => negb (existsb (String.eqb c) TrainModel.dropped))
           csv_columns.
Proof.
  unfold TrainModel.X_columns, TrainModel.dropna_subset, TrainModel.drop,
    TrainModel.not_found.
  destruct (filter _ ["Complication"]); [|discriminate].
  cbn [at_line].
  destruct (filter (fun l => negb (existsb (String.eqb l) csv_columns))
              TrainModel.dropped) eqn:Hm; [|discriminate].
  intros H. injection H as <-. split; [|reflexivity].
  now apply missing_labels_nil.
Qed.

Lemma label_not_found (csv_columns : list string) :
  (In "Complication" csv_columns ->
   TrainModel.not_found csv_columns ["Complication"] = [])
  /\ (~ In "Complication" csv_columns ->
      TrainModel.not_found csv_columns ["Complication"] = ["Complication"]).
Proof.
  unfold TrainModel.not_found. cbn [filter].
  destruct (existsb (String.eqb "Complication") csv_columns) eqn:E.
  - split; [reflexivity|]. intros H. exfalso. apply H.
    now apply existsb_eqb_In.
  - split; [|reflexivity]. intros H.
    apply existsb_eqb_In in H. congruence.
Qed.

(** X13: The script gets as far as the feature columns exactly when the CSV
    has the label column and the five other columns it drops.  A CSV
    without the label column stops it at line 13 with the [KeyError] of
    [dropna]; a CSV with the label column and without some of the others
    stops it at line 17 with the [KeyError] of [drop] for the columns not
    found. *)
Theorem training_needs_dropped_columns
  (drop_keyerror_str dropna_keyerror_str : list string -> string)
  (csv_columns : list string) :
  ((exists X,
       TrainModel.X_columns drop_keyerror_str dropna_keyerror_str csv_columns
       = Ok X)
   <-> (forall c, In c ["Patient_ID"; "Complication"; "Risk_Score";
                        "Recommended_Medication"; "Dosage"; "Duration"] ->
                  In c csv_columns))
  /\ (~ In "Complication" csv_columns ->
      TrainModel.X_columns drop_keyerror_str dropna_keyerror_str csv_columns
      = Raise {| exn_class := "KeyError";
                 exn_str := dropna_keyerror_str ["Complication"];
                 exn_traceback := [("<module>", 13)] |})
  /\ (In "Complication" csv_columns ->
      forall c missing,
        TrainModel.not_found csv_columns
          ["Patient_ID"; "Complication"; "Risk_Score";
           "Recommended_Medication"; "Dosage"; "Duration"]
        = c :: missing ->
        TrainModel.X_columns drop_keyerror_str dropna_keyerror_str csv_columns
        = Raise {| exn_class := "KeyError";
                   exn_str := drop_keyerror_str (c :: missing);
                   exn_traceback := [("<module>", 17)] |}).
Proof.
  split; [|split].
  - split.
    + intros [X H]. now apply (X_columns_ok _ _ _ H).
    + intros H.
      unfold TrainModel.X_columns, TrainModel.dropna_subset, TrainModel.drop.
      rewrite (proj1 (label_not_found csv_columns))
        by (apply H; simpl; tauto).
      cbn [at_line].
      replace (TrainModel.not_found csv_columns TrainModel.dropped)
        with (@nil string).
      * eexists; reflexivity.
      * symmetry. now apply missing_labels_nil.
  - intros Hno.
    unfold TrainModel.X_columns, TrainModel.dropna_subset.
    rewrite (proj2 (label_not_found csv_columns) Hno). reflexivity.
  - intros Hyes c missing Hm.
    unfold TrainModel.X_columns, TrainModel.dropna_subset, TrainModel.drop.
    rewrite (proj1 (label_not_found csv_columns) Hyes). cbn [at_line].
    change TrainModel.dropped
      with ["Patient_ID"; "Complication"; "Risk_Score";
            "Recommended_Medication"; "Dosage"; "Duration"].
    rewrite Hm. reflexivity.
Qed.

(** X14: No column the script drops (the identifier, the label, the risk
    score, the medication, the dosage, the duration) is among the
    numerical or the categorical columns handed to the transformer,
    whatever the columns of the CSV. *)
Theorem training_features_exclude_dropped
  (drop_keyerror_str dropna_keyerror_str : list string -> string)
  (csv_columns : list string) (num cat : list string) :
  TrainModel.feature_groups drop_keyerror_str dropna_keyerror_str csv_columns
  = Ok (num, cat) ->
  forall c,
    In c ["Patient_ID"; "Complication"; "Risk_Score";
          "Recommended_Medication"; "Dosage"; "Duration"] ->
    ~ In c (num ++ cat).
Proof.
  unfold TrainModel.feature_groups.
  destruct (TrainModel.X_columns drop_keyerror_str dropna_keyerror_str
              csv_columns) as [X|e] eqn:HX;
    [|discriminate].
  intros H. injection H as <- <-.
  destruct (X_columns_ok _ _ _ HX) as [_ ->].
  intros c Hc Hin. apply in_app_or in Hin. destruct Hin as [Hin|Hin].
  - unfold TrainModel.numerical in Hin.
    apply filter_In in Hin. destruct Hin as [Hin _].
    apply filter_In in Hin. destruct Hin as [_ Hneg].
    apply negb_true_iff in Hneg.
    rewrite (proj2 (existsb_eqb_In c TrainModel.dropped) Hc) in Hneg.
    discriminate.
  - simpl in Hc, Hin.
    repeat (destruct Hc as [<-|Hc]; [intuition discriminate|]).
    exact Hc.
Qed.

(** X15: When the columns of [X] are distinct and include the six categorical
    columns, the numerical and the categorical columns are disjoint and
    together are the columns of [X]: every feature column goes to exactly
    one of the two transformers. *)
Theorem training_groups_partition (X : list string) :
  NoDup X ->
  (forall c, In c TrainModel.categorical -> In c X) ->
  Permutation (TrainModel.numerical X ++ TrainModel.categorical) X
  /\ (forall c, In c (TrainModel.numerical X) ->
                ~ In c TrainModel.categorical).
Proof.
  intros Hnd Hcat.
  assert (Hdisj : forall c, In c (TrainModel.numerical X) ->
                            ~ In c TrainModel.categorical).
  { intros c Hin Hc. unfold TrainModel.numerical in Hin.
    apply filter_In in Hin. destruct Hin as [_ Hneg].
    apply negb_true_iff in Hneg.
    rewrite (proj2 (existsb_eqb_In c TrainModel.categorical) Hc) in Hneg.
    discriminate. }
  split; [|exact Hdisj].
  apply NoDup_Permutation; [|exact Hnd|].
  - apply NoDup_app; [now apply NoDup_filter | | exact Hdisj].
    unfold TrainModel.categorical.
    repeat (constructor; [simpl; intuition discriminate|]). constructor.
  - intros c. rewrite in_app_iff. split.
    + intros [Hin|Hin]; [|now apply Hcat].
      unfold TrainModel.numerical in Hin. now apply filter_In in Hin.
    + intros Hin.
      destruct (existsb (String.eqb c) TrainModel.categorical) eqn:E.
      * right. now apply existsb_eqb_In.
      * left. unfold TrainModel.numerical. apply filter_In.
        split; [exact Hin | now rewrite E].
Qed.

(** X16: The six categorical columns of the training script are among the
    features the backend expects, so every frame coercion builds for an
    object or an array of objects has each of them as a column. *)
Theorem coerced_frame_has_categorical_columns
  (keyerror_str : list string -> string)
  (stored_value : list cell -> json -> json) (keeps_None : list cell -> bool)
  (DataFrame_irregular : list json -> except DataFrame)
  (payload : json) (df : DataFrame) :
  feature_payload payload = true ->
  validate_and_build_df keyerror_str stored_value keeps_None
    DataFrame_irregular payload = Ok df ->
  forall c, In c TrainModel.categorical -> In c (columns df).
Proof.
  intros Hfp Hdf c Hc.
  destruct (feature_payload_records payload Hfp) as (records & Hrec & Hobj).
  rewrite (@coerce_dicts keyerror_str stored_value keeps_None
             DataFrame_irregular records _ Hobj eq_refl payload Hrec) in Hdf.
  injection Hdf as <-. unfold columns, Dict.keys. cbn [data map fst].
  simpl in Hc. simpl. tauto.
Qed.

(** * More runs on the sample runtime *)

Lemma predict_recommend_extends_predict_witness :
  exists out,
    fst (run_predict_recommend sample_model_proba (Ok sample_patient))
    = jsonify (ok_body "results" out)
    /\ Forall2 (extends_entry PyStr.lower builtin_med_map)
         [JObject [("Complication", JString "Bleeding");
                   ("Probabilities",
                    JObject [("Infection", JFloat 0.25%float);
                             ("Bleeding", JFloat 0.75%float)])]]
         out.
Proof.
  apply (predict_recommend_extends_predict PyStr.lower sample_format_exc
           sample_keyerror_str sample_stored_value sample_keeps_None sample_irregular builtin_med_map
           sample_model_proba sample_patient).
  vm_compute. reflexivity.
Defined.

Lemma short_probabilities_rejected_witness :
  List.length [[1%float]] < List.length ["Infection"; "Infection"]
  /\ run_predict sample_model_short (Ok (JArray [sample_patient; JObject []]))
     = ({| body := JObject [("status", JString "error");
                            ("error", JString "list index out of range");
                            ("trace",
                             JString (sample_format_exc
                                        (through_frame "predict" 116
                                           (IndexError "list index out of range"))))];
           status := 400 |},
        [CallPredict sample_pair_frame; CallPredictProba sample_pair_frame]).
Proof.
  split; [simpl; lia|].
  refine (proj1 (short_probabilities_rejected PyStr.lower sample_format_exc
                   sample_keyerror_str sample_stored_value sample_keeps_None
                   sample_irregular builtin_med_map
                   sample_model_short (JArray [sample_patient; JObject []])
                   (df := sample_pair_frame)
                   (preds := ["Infection"; "Infection"])
                   (predict_proba := fun _ => Ok [[1%float]])
                   (rows := [[1%float]])
                   coerce_sample_pair eq_refl eq_refl eq_refl _)).
  simpl. lia.
Defined.

Lemma predict_call_protocol_witness :
  snd (run_predict sample_model (Ok sample_patient))
  = [CallPredict sample_patient_frame]
  /\ snd (run_predict_recommend sample_model_proba (Ok sample_patient))
     = [CallPredict sample_patient_frame; CallPredictProba sample_patient_frame]
  /\ snd (run_predict sample_model_failing (Ok sample_patient))
     = [CallPredict sample_patient_frame]
  /\ status (fst (run_predict_recommend sample_model_failing
                    (Ok sample_patient))) = 400.
Proof.
  pose proof (predict_call_protocol PyStr.lower sample_format_exc
                sample_keyerror_str sample_stored_value sample_keeps_None
                sample_irregular builtin_med_map) as H.
  split; [|split; [|split]].
  - rewrite (proj1 (H sample_model (Ok sample_patient))).
    vm_compute. reflexivity.
  - rewrite (proj1 (proj2 (H sample_model_proba (Ok sample_patient)))).
    vm_compute. reflexivity.
  - rewrite (proj1 (H sample_model_failing (Ok sample_patient))).
    vm_compute. reflexivity.
  - rewrite <- (proj1 (proj2 (proj2 (H sample_model_failing
                                       (Ok sample_patient))))).
    vm_compute. reflexivity.
Defined.

Lemma probabilities_by_class_witness :
  probabilities sample_model_proba
    [[0.25%float; 0.75%float]; [0.5%float; 0.5%float]] 1
  = Ok (JObject [("Infection", JFloat 0.5%float); ("Bleeding", JFloat 0.5%float)])
  /\ probabilities sample_model [[0.25%float; 0.75%float]] 0
     = Ok (JArray [JFloat 0.25%float; JFloat 0.75%float]).
Proof.
  split.
  - refine (proj1 (proj1 (probabilities_by_class sample_model_proba
                            [[0.25%float; 0.75%float]; [0.5%float; 0.5%float]] 1
                            eq_refl)
                     "Infection" ["Bleeding"] eq_refl _)).
    repeat constructor; simpl; intuition discriminate.
  - exact (proj2 (probabilities_by_class sample_model
                    [[0.25%float; 0.75%float]] 0 eq_refl)
             (or_introl eq_refl)).
Defined.

Lemma coercion_reads_expected_features_only_witness :
  coerce (JObject [("Ward", JString "B2"); ("Age", JInt 60)])
  = coerce (JObject [("Age", JInt 60)])
  /\ coerce (JArray [JObject [("Note", JNull)]]) = coerce (JArray [JObject []]).
Proof.
  destruct (coercion_reads_expected_features_only sample_keyerror_str sample_stored_value
              sample_keeps_None sample_irregular eq_refl) as (Harr & _ & Hkey).
  split.
  - apply Hkey. vm_compute. intuition discriminate.
  - apply (Harr [JObject []] [JObject [("Note", JNull)]]).
    constructor; [|constructor].
    split; [reflexivity|]. split; [reflexivity|].
    intros c Hc. vm_compute in Hc. cbn [members_of Dict.find].
    repeat (destruct Hc as [<-|Hc]; [reflexivity|]). destruct Hc.
Defined.

Lemma recommend_complication_not_a_string_witness :
  run_recommend sample_model_failing (Ok (JObject [("Complication", JNull)]))
  = (jsonify
       (JObject [("status", JString "ok");
                 ("complication", JNull);
                 ("recommendation",
                  JObject [("Recommended_Medication", JString "Pain Management");
                           ("Dosage", JString "100 mg/day");
                           ("Duration", JString "1 days");
                           ("Source", JString "medication_map.csv")])]),
     []).
Proof.
  rewrite (recommend_complication_not_a_string PyStr.lower sample_repr
             sample_format_exc sample_keyerror_str sample_stored_value sample_keeps_None sample_irregular
             builtin_med_map sample_model_failing
             [("Complication", JNull)] (label := "None")
             eq_refl (or_introl (conj eq_refl eq_refl))).
  vm_compute. reflexivity.
Defined.

Lemma recommend_agrees_with_predict_recommend_witness :
  fst (run_recommend sample_model (Ok sample_patient))
  = jsonify (ok_body "recommendations"
               [recommend_entry PyStr.lower builtin_med_map "Infection"]).
Proof.
  destruct (recommend_agrees_with_predict_recommend PyStr.lower sample_repr
              sample_format_exc sample_keyerror_str sample_stored_value sample_keeps_None sample_irregular
              builtin_med_map sample_model sample_patient
              (out := [recommend_entry PyStr.lower builtin_med_map "Infection"])
              eq_refl eq_refl)
    as (recs & Hrecs & _ & Heq).
  - vm_compute. reflexivity.
  - rewrite Hrecs.
    rewrite (Heq sample_patient_frame coerce_sample_patient eq_refl).
    reflexivity.
Defined.

Lemma builtin_map_agrees_with_rules_witness :
  Recommended_Medication (resolve "BLEEDING")
  = Recommended_Medication (fallback (PyStr.lower "BLEEDING"))
  /\ Source (resolve "BLEEDING") = "medication_map.csv".
Proof.
  destruct (builtin_map_agrees_with_rules PyStr.lower "BLEEDING"
              eq_refl eq_refl eq_refl eq_refl) as (H & _ & _ & Hs).
  split; [exact H|]. apply Hs. vm_compute. tauto.
Defined.

Lemma infect_anywhere_any_case_witness :
  resolve "Post-bleed wound INFECTion, day 3" = rule_infect.
Proof.
  apply (@infect_anywhere_any_case PyStr.lower builtin_med_map
           "Post-bleed wound " "INFECT" "ion, day 3");
    [intros s _; reflexivity | vm_compute; reflexivity ..].
Defined.

Lemma training_needs_dropped_columns_witness :
  TrainModel.X_columns sample_labels_str sample_labels_str ["Patient_ID"; "Age"]
  = Raise {| exn_class := "KeyError";
             exn_str := "Complication";
             exn_traceback := [("<module>", 13)] |}
  /\ TrainModel.X_columns sample_labels_str sample_labels_str
       ["Patient_ID"; "Age"; "Complication"; "Dosage"]
     = Raise {| exn_class := "KeyError";
                exn_str := "Risk_Score, Recommended_Medication, Duration";
                exn_traceback := [("<module>", 17)] |}
  /\ exists X,
       TrainModel.X_columns sample_labels_str sample_labels_str
         sample_csv_columns
       = Ok X.
Proof.
  split; [|split].
  - apply (proj1 (proj2 (training_needs_dropped_columns
                           sample_labels_str sample_labels_str
                           ["Patient_ID"; "Age"]))).
    simpl. intuition discriminate.
  - apply (proj2 (proj2 (training_needs_dropped_columns
                           sample_labels_str sample_labels_str
                           ["Patient_ID"; "Age"; "Complication"; "Dosage"]))
             ltac:(simpl; tauto)
             "Risk_Score" ["Recommended_Medication"; "Duration"]).
    vm_compute. reflexivity.
  - apply (proj2 (proj1 (training_needs_dropped_columns
                           sample_labels_str sample_labels_str
                           sample_csv_columns))).
    intros c Hc. simpl in Hc. vm_compute. tauto.
Defined.

Lemma training_features_exclude_dropped_witness :
  TrainModel.feature_groups sample_keyerror_str sample_keyerror_str
      sample_csv_columns
  = Ok (["Age"; "BMI"; "ASA_Score"; "Preop_Hb"; "Preop_WBC"; "Duration_Min";
         "Blood_Loss_ml"; "Postop_Hb"; "Postop_WBC"],
        TrainModel.categorical)
  /\ ~ In "Risk_Score"
       (["Age"; "BMI"; "ASA_Score"; "Preop_Hb"; "Preop_WBC"; "Duration_Min";
         "Blood_Loss_ml"; "Postop_Hb"; "Postop_WBC"] ++ TrainModel.categorical).
Proof.
  assert (H : TrainModel.feature_groups sample_keyerror_str sample_keyerror_str
      sample_csv_columns
              = Ok (["Age"; "BMI"; "ASA_Score"; "Preop_Hb"; "Preop_WBC";
                     "Duration_Min"; "Blood_Loss_ml"; "Postop_Hb"; "Postop_WBC"],
                    TrainModel.categorical))
    by (vm_compute; reflexivity).
  split; [exact H|].
  apply (training_features_exclude_dropped sample_keyerror_str
           sample_keyerror_str sample_csv_columns H).
  simpl. tauto.
Defined.

Lemma training_groups_partition_witness :
  Permutation
    (TrainModel.numerical
       (match EXPECTED_FEATURES with Some f => f | None => [] end)
     ++ TrainModel.categorical)
    (match EXPECTED_FEATURES with Some f => f | None => [] end).
Proof.
  apply training_groups_partition.
  - simpl. repeat (constructor; [simpl; intuition discriminate|]). constructor.
  - intros c Hc. simpl in Hc. simpl. tauto.
Defined.

Lemma coerced_frame_has_categorical_columns_witness :
  feature_payload (JObject []) = true /\ In "Surgery_Type" (columns all_null_row).
Proof.
  split; [reflexivity|].
  apply (coerced_frame_has_categorical_columns sample_keyerror_str sample_stored_value
           sample_keeps_None sample_irregular (JObject []) (df := all_null_row) eq_refl);
    [vm_compute; reflexivity | simpl; tauto].
Defined.

Lemma missing_feature_markers_witness :
  Dict.find (data sample_pair_frame) "Age" = Some [Val (JFloat 60%float); NaN]
  /\ nth_error [Val (JFloat 60%float); NaN] 1 = Some NaN
  /\ [Val JNull; Val JNull] = repeat (Val JNull) 2.
Proof.
  split; [vm_compute; reflexivity|]. split.
  - refine (proj2 (missing_feature_markers sample_keyerror_str sample_stored_value sample_keeps_None sample_irregular
                     (JArray [sample_patient; JObject []])
                     (records := [sample_patient; JObject []])
                     (df := sample_pair_frame) "Age"
                     (column := [Val (JFloat 60%float); NaN])
                     eq_refl eq_refl coerce_sample_pair _)
              _ 1 (JObject []) eq_refl eq_refl).
    + vm_compute. reflexivity.
    + exists sample_patient. split; [now left | vm_compute; discriminate].
  - refine (proj1 (missing_feature_markers sample_keyerror_str sample_stored_value sample_keeps_None sample_irregular
                     (JArray [sample_patient; JObject []])
                     (records := [sample_patient; JObject []])
                     (df := sample_pair_frame) "BMI"
                     (column := [Val JNull; Val JNull])
                     eq_refl eq_refl coerce_sample_pair _) _).
    + vm_compute. reflexivity.
    + intros r [<-|[<-|[]]]; vm_compute; reflexivity.
Defined.
